(** * dvclive scikit-learn plot adapters ([src/dvclive/plots/sklearn.py])

    A shallow embedding of the adapter classes [SKLearnPlot], [Roc],
    [PrecisionRecall], [Det], [ConfusionMatrix] and [Calibration], and the
    properties of their constructors, [could_log], [output_path],
    [get_properties] and [dump].

    Python objects are an inductive type of values, [str] is [string],
    keyword arguments and property dictionaries are finite maps, the file
    system and the object store are finite maps threaded explicitly, and
    exceptions are the left summand of a result. *)

From Stdlib Require Import ZArith Ascii String List Lia.
From Stdlib Require Import Floats.SpecFloat.
From stdpp Require Import base option list gmap strings pretty.

Set Warnings "-register-all".

(** ** Python [str] operations *)

Module PyStr.

(** [s.startswith(p)]. *)
Fixpoint startswith (p s : string) : bool :=
  match p, s with
  | EmptyString, _ => true
  | String _ _, EmptyString => false
  | String a p', String b s' => Ascii.eqb a b && startswith p' s'
  end.

(** The left-to-right scan of [s.replace(old, new)] for a non-empty
    [old]: [skip] counts the characters of a match that are still to be
    dropped. *)
Fixpoint replace_go (old new : string) (skip : nat) (s : string) : string :=
  match s with
  | EmptyString => EmptyString
  | String c s' =>
      match skip with
      | S k => replace_go old new k s'
      | O =>
          if startswith old s
          then new +:+ replace_go old new (String.length old - 1) s'
          else String c (replace_go old new 0 s')
      end
  end.

(** With an empty [old], Python puts [new] before every character and at
    the end. *)
Fixpoint intersperse_new (new s : string) : string :=
  match s with
  | EmptyString => new
  | String c s' => new +:+ String c (intersperse_new new s')
  end.

(** [s.replace(old, new)]: every non-overlapping occurrence, scanning
    from the left. *)
Definition replace (old new s : string) : string :=
  match old with
  | EmptyString => intersperse_new new s
  | String _ _ => replace_go old new 0 s
  end.

(** [s.split(sep)] for a one-character separator: never the empty list. *)
Fixpoint split (sep : ascii) (s : string) : list string :=
  match s with
  | EmptyString => [EmptyString]
  | String c s' =>
      if Ascii.eqb c sep then EmptyString :: split sep s'
      else match split sep s' with
           | h :: t => String c h :: t
           | [] => [String c EmptyString]
           end
  end.

(** [sep.join(l)]. *)
Fixpoint join (sep : string) (l : list string) : string :=
  match l with
  | [] => EmptyString
  | [x] => x
  | x :: l' => x +:+ sep +:+ join sep l'
  end.

(** [s.lstrip(c)] for one character, with the number of characters
    dropped. *)
Fixpoint lstrip_count (c : ascii) (s : string) : nat * string :=
  match s with
  | String a s' =>
      if Ascii.eqb a c
      then let '(n, r) := lstrip_count c s' in (S n, r)
      else (0, s)
  | EmptyString => (0, s)
  end.

(** [p in s] for a non-empty [p]. *)
Fixpoint occurs (p s : string) : bool :=
  match s with
  | EmptyString => false
  | String _ s' => startswith p s || occurs p s'
  end.

(** [c in s]. *)
Fixpoint contains (c : ascii) (s : string) : bool :=
  match s with
  | EmptyString => false
  | String a s' => Ascii.eqb a c || contains c s'
  end.

End PyStr.

(** ** Python values, exceptions and results *)

Inductive value : Type :=
| VNone
| VBool (b : bool)
| VInt (z : Z)
| VFloat (f : spec_float)
| VStr (s : string)
| VTuple (items : list value)
| VList (items : list value)
| VDict (entries : list (value * value)).

Inductive exn : Type :=
| TypeError
| IndexError
| KeyError
| ValueError
| ImportError
| FileExistsError
| FileNotFoundError
| NotADirectoryError
| IsADirectoryError.

(** A computation that returns or raises. *)
Definition result (A : Type) : Type := (exn + A)%type.

#[global] Instance result_ret : MRet result := λ A x, inr x.

#[global] Instance result_bind : MBind result := λ A B f m,
  match m with
  | inl e => inl e
  | inr x => f x
  end.

(** Running [f] over a list from the left, stopping at the first
    exception. *)
Section Traverse.
Context {A B : Type} (f : A → result B).

Fixpoint traverse (l : list A) : result (list B) :=
  match l with
  | [] => inr []
  | x :: l' => y ← f x; ys ← traverse l'; mret (y :: ys)
  end.
End Traverse.

(** The exceptions the file system raises. *)
Definition fs_error (e : exn) : Prop :=
  e = FileExistsError ∨ e = FileNotFoundError
  ∨ e = NotADirectoryError ∨ e = IsADirectoryError.

(** Keyword arguments [**kwargs]. *)
Abbreviation kwargs := (gmap string value).

Module Py.

Definition isinstance_tuple (v : value) : bool :=
  match v with
  | VTuple _ => true
  | _ => false
  end.

(** [len(v)]; objects without [__len__] raise [TypeError]. *)
Definition len (v : value) : result nat :=
  match v with
  | VTuple l | VList l => inr (length l)
  | VDict kvs => inr (length kvs)
  | VStr s => inr (String.length s)
  | VNone | VBool _ | VInt _ | VFloat _ => inl TypeError
  end.

(** Truth value of an object. *)
Definition truthy (v : value) : bool :=
  match v with
  | VNone => false
  | VBool b => b
  | VInt z => negb (z =? 0)%Z
  | VFloat (S754_zero _) => false
  | VFloat _ => true
  | VStr s => negb (String.eqb s "")
  | VTuple l | VList l => negb (Nat.eqb (length l) 0)
  | VDict kvs => negb (Nat.eqb (length kvs) 0)
  end.

(** [a or b]. *)
Definition or (a b : value) : value := if truthy a then a else b.

(** [kwargs.get(k)]. *)
Definition kwargs_get (kw : kwargs) (k : string) : value :=
  default VNone (kw !! k).

(** The binary64 value of the index 0 or 1. *)
Definition float_of_index (i : nat) : spec_float :=
  match i with
  | 0 => S754_zero false
  | 1 => S754_finite false 4503599627370496 (-52)
  | _ => S754_nan
  end.

(** Whether a dictionary key equals the integer index [i] (0 or 1), as
    Python compares numbers across [int], [bool] and [float]. *)
Definition key_is_index (i : nat) (k : value) : bool :=
  match k with
  | VInt z => (z =? Z.of_nat i)%Z
  | VBool b => Nat.eqb (if b then 1 else 0) i
  | VFloat f => SFeqb f (float_of_index i)
  | _ => false
  end.

Fixpoint dict_lookup_index (i : nat) (kvs : list (value * value)) : option value :=
  match kvs with
  | [] => None
  | (k, x) :: kvs' =>
      match dict_lookup_index i kvs' with
      | Some y => Some y
      | None => if key_is_index i k then Some x else None
      end
  end.

(** [v[i]] for a small non-negative literal index. *)
Definition getitem (v : value) (i : nat) : result value :=
  match v with
  | VTuple l | VList l =>
      match l !! i with
      | Some x => inr x
      | None => inl IndexError
      end
  | VStr s =>
      match String.get i s with
      | Some c => inr (VStr (String c EmptyString))
      | None => inl IndexError
      end
  | VDict kvs =>
      match dict_lookup_index i kvs with
      | Some x => inr x
      | None => inl KeyError
      end
  | VNone | VBool _ | VInt _ | VFloat _ => inl TypeError
  end.

Fixpoint chars (s : string) : list value :=
  match s with
  | EmptyString => []
  | String c s' => VStr (String c EmptyString) :: chars s'
  end.

(** The elements [iter(v)] yields; not every object is iterable. *)
Definition iter (v : value) : result (list value) :=
  match v with
  | VTuple l | VList l => inr l
  | VStr s => inr (chars s)
  | VDict kvs => inr (kvs.*1)
  | VNone | VBool _ | VInt _ | VFloat _ => inl TypeError
  end.

(** [zip(a, b)], consumed whole: stops at the shorter argument. *)
Definition zip (a b : value) : result (list (value * value)) :=
  xs ← iter a; ys ← iter b; mret (combine xs ys).

Definition zip3 {A B C : Type} (a : list A) (b : list B) (c : list C)
  : list (A * B * C) :=
  combine (combine a b) c.

Section Repr.
(** [repr] of a float and of a string are CPython's own formatting
    routines; they are taken as given. *)
Variable repr_float : spec_float → string.
Variable repr_str : string → string.

Fixpoint repr (v : value) : string :=
  match v with
  | VNone => "None"
  | VBool true => "True"
  | VBool false => "False"
  | VInt z => pretty z
  | VFloat f => repr_float f
  | VStr s => repr_str s
  | VTuple l =>
      match l with
      | [x] => "(" +:+ repr x +:+ ",)"
      | _ => "(" +:+ PyStr.join ", " (map repr l) +:+ ")"
      end
  | VList l => "[" +:+ PyStr.join ", " (map repr l) +:+ "]"
  | VDict kvs =>
      "{" +:+ PyStr.join ", "
                (map (λ kx, repr (fst kx) +:+ ": " +:+ repr (snd kx)) kvs)
          +:+ "}"
  end.

(** [str(v)] (the interpreter's limit on the digits of an integer turned
    into text is not modelled). *)
Definition str (v : value) : string :=
  match v with
  | VStr s => s
  | _ => repr v
  end.
End Repr.

End Py.

(** ** [pathlib] on POSIX: pure paths *)

Module Pathlib.

(** A parsed path: [root] is the empty string, one slash or two slashes;
    [parts] are the components after it. *)
Record PurePath : Type := mk_path { root : string; parts : list string }.

#[global] Instance PurePath_eq_dec : EqDecision PurePath.
Proof. solve_decision. Defined.

#[global] Instance PurePath_countable : Countable PurePath :=
  inj_countable' (λ p, (root p, parts p)) (λ rp, mk_path rp.1 rp.2)
    (λ p, match p with mk_path _ _ => eq_refl end).

(** Leading slashes: exactly two are kept as the root, any other number
    collapses to one. *)
Definition splitroot (part : string) : string * string :=
  match part with
  | String c _ =>
      if Ascii.eqb c "/"
      then let '(n, rel) := PyStr.lstrip_count "/" part in
           (if Nat.eqb n 2 then "//" else "/", rel)
      else ("", part)
  | EmptyString => ("", part)
  end.

(** Components that survive parsing: [x and x != '.']. *)
Definition is_component (x : string) : Prop := x ≠ "" ∧ x ≠ ".".

#[global] Instance is_component_dec x : Decision (is_component x).
Proof. unfold is_component. apply _. Defined.

(** [PurePosixPath(s)]. *)
Definition parse (s : string) : PurePath :=
  let '(r, rel) := splitroot s in
  {| root := r; parts := filter is_component (PyStr.split "/" rel) |}.

(** [p / s]: an anchored right operand replaces the left one. *)
Definition joinpath (p : PurePath) (s : string) : PurePath :=
  let q := parse s in
  match root q with
  | EmptyString => {| root := root p; parts := parts p ++ parts q |}
  | String _ _ => q
  end.

(** [str(p)]. *)
Definition to_str (p : PurePath) : string :=
  match root p +:+ PyStr.join "/" (parts p) with
  | EmptyString => "."
  | String c s => String c s
  end.

(** [p.parent]: a path without components is its own parent. *)
Definition parent (p : PurePath) : PurePath :=
  {| root := root p; parts := removelast (parts p) |}.

(** What a component of a parsed path looks like: not empty, not a
    single dot, free of slashes. *)
Definition wf_part (x : string) : Prop :=
  is_component x ∧ PyStr.contains "/" x = false.

(** The paths [parse] and [joinpath] produce. *)
Definition wf_path (p : PurePath) : Prop :=
  (root p = "" ∨ root p = "/" ∨ root p = "//") ∧ Forall wf_part (parts p).

(** [q.is_relative_to(p)], a comparison of components. *)
Definition is_relative_to (q p : PurePath) : Prop :=
  root q = root p ∧ parts p `prefix_of` parts q.

End Pathlib.

Export Pathlib.

(** ** JSON documents and the file system *)

Inductive json : Type :=
| JNull
| JBool (b : bool)
| JInt (z : Z)
| JFloat (f : spec_float)
| JStr (s : string)
| JArr (items : list json)
| JObj (members : list (string * json)).

Inductive node : Type :=
| Dir
| File (content : json).

(** The file system: which paths exist, and as what.  Paths are compared
    by components; a path without components (the working directory or a
    root) always exists as a directory.  Components are taken as they
    stand: [..] is an ordinary name and there are no symbolic links.
    Permissions and limits on names are not modelled, so the only way a
    directory cannot be made is a file in the way. *)
Abbreviation fs := (gmap PurePath node).

(** A computation on the file system that returns or raises; effects made
    before an exception stay. *)
Definition IO (A : Type) : Type := fs → result A * fs.

#[global] Instance IO_ret : MRet IO := λ A x σ, (inr x, σ).

#[global] Instance IO_bind : MBind IO := λ A B f m σ,
  match m σ with
  | (inl e, σ') => (inl e, σ')
  | (inr x, σ') => f x σ'
  end.

Definition lift {A : Type} (r : result A) : IO A := λ σ, (r, σ).

Module FS.

Definition is_dir (σ : fs) (p : PurePath) : bool :=
  match parts p with
  | [] => true
  | _ :: _ => match σ !! p with Some Dir => true | _ => false end
  end.

(** Creates the directories [r/done/x1], [r/done/x1/x2], ... that are
    missing; a file in the way raises. *)
Fixpoint makedirs_go (r : string) (done todo : list string) : IO unit :=
  match todo with
  | [] => mret ()
  | x :: todo' =>
      let q := {| root := r; parts := done ++ [x] |} in
      λ σ,
        match σ !! q with
        | Some Dir => makedirs_go r (done ++ [x]) todo' σ
        | Some (File _) =>
            (inl (match todo' with
                  | [] => FileExistsError
                  | _ :: _ => NotADirectoryError
                  end), σ)
        | None => makedirs_go r (done ++ [x]) todo' (<[q := Dir]> σ)
        end
  end.

(** [p.mkdir(exist_ok=True, parents=True)]. *)
Definition mkdir_parents_exist_ok (p : PurePath) : IO unit :=
  makedirs_go (root p) [] (parts p).

(** Opening [p] for writing and storing a whole document. *)
Definition write (p : PurePath) (doc : json) : IO unit := λ σ,
  if is_dir σ p then (inl IsADirectoryError, σ)
  else if is_dir σ (parent p) then (inr (), <[p := File doc]> σ)
  else match σ !! parent p with
       | Some _ => (inl NotADirectoryError, σ)
       | None => (inl FileNotFoundError, σ)
       end.

End FS.

(** ** The object store: dictionaries reached through references *)

Abbreviation loc := positive.

(** A [dict] from [str] to [str], as the property tables are. *)
Abbreviation pydict := (gmap string string).

Abbreviation heap := (gmap loc pydict).

Module Heap.

(** [copy.deepcopy(d)] of the dictionary at [l]: a new object with the
    same items (the items are immutable strings). *)
Definition deepcopy (l : loc) (h : heap) : option (loc * heap) :=
  d ← h !! l;
  let l' := fresh (dom h) in
  Some (l', <[l' := d]> h).

(** [d[k] = v] on the dictionary at [l]. *)
Definition setitem (l : loc) (k v : string) (h : heap) : heap :=
  alter (λ d : pydict, <[k := v]> d) l h.

(** An arbitrary in-place change of the dictionary at [l]. *)
Definition mutate (l : loc) (f : pydict → pydict) (h : heap) : heap :=
  alter f l h.

(** A sequence of in-place changes of the dictionary at [l]. *)
Definition mutate_all (l : loc) (fs : list (pydict → pydict)) (h : heap) : heap :=
  foldl (λ h' f, mutate l f h') h fs.

End Heap.

(** ** The adapter classes *)

Inductive plot_class : Type :=
| CRoc
| CPrecisionRecall
| CDet
| CConfusionMatrix
| CCalibration.

(** Instance attributes of [SKLearnPlot]. *)
Record SKLearnPlot : Type := {
  name : string;
  output_folder : PurePath
}.

(** [ConfusionMatrix] adds [normalized]. *)
Record ConfusionMatrixObj : Type := {
  cm_base : SKLearnPlot;
  normalized : value
}.

Inductive plot : Type :=
| Roc (self : SKLearnPlot)
| PrecisionRecall (self : SKLearnPlot)
| Det (self : SKLearnPlot)
| ConfusionMatrix (self : ConfusionMatrixObj)
| Calibration (self : SKLearnPlot).

Definition class_of (p : plot) : plot_class :=
  match p with
  | Roc _ => CRoc
  | PrecisionRecall _ => CPrecisionRecall
  | Det _ => CDet
  | ConfusionMatrix _ => CConfusionMatrix
  | Calibration _ => CCalibration
  end.

Definition base_of (p : plot) : SKLearnPlot :=
  match p with
  | Roc b | PrecisionRecall b | Det b | Calibration b => b
  | ConfusionMatrix c => cm_base c
  end.

Definition subfolder : string := "sklearn".

(** Modelled from the spec: [Data.__init__] of [dvclive/plots/base.py],
    which is not among the sources.  It keeps the name and, as the layout
    [<output_folder>/<subfolder>/<name>.json] says, the output folder
    joined with the class's subfolder. *)
Definition Data_init (name' output_folder' : string) : SKLearnPlot :=
  {| name := name';
     output_folder := joinpath (parse output_folder') subfolder |}.

(** [SKLearnPlot.__init__]; the keyword arguments are not used. *)
Definition SKLearnPlot_init (name' output_folder' : string) (kw : kwargs)
  : SKLearnPlot :=
  let self := Data_init name' output_folder' in
  {| name := PyStr.replace ".json" "" (self.(name));
     output_folder := self.(output_folder) |}.

(** The property [SKLearnPlot.output_path]. *)
Definition output_path (self : SKLearnPlot) : IO PurePath :=
  let _path :=
    parse (to_str (joinpath self.(output_folder) self.(name)) +:+ ".json") in
  _ ← FS.mkdir_parents_exist_ok (parent _path);
  mret _path.

(** [SKLearnPlot.could_log]. *)
Definition could_log (val : value) : result bool :=
  both ← (if Py.isinstance_tuple val
          then n ← Py.len val; mret (Nat.eqb n 2)
          else mret false);
  if (both : bool) then mret true else mret false.

(** [ConfusionMatrix.__init__]. *)
Definition ConfusionMatrix_init (name' output_folder' : string) (kw : kwargs)
  : ConfusionMatrixObj :=
  {| cm_base := SKLearnPlot_init name' output_folder' ∅;
     normalized := Py.or (Py.kwargs_get kw "normalized") (VBool false) |}.

(** The class attributes [DEFAULT_PROPERTIES]. *)
Definition DEFAULT_PROPERTIES (c : plot_class) : pydict :=
  match c with
  | CRoc =>
      list_to_map
        [("template", "simple"); ("x", "fpr"); ("y", "tpr");
         ("title", "Receiver operating characteristic (ROC)");
         ("x_label", "False Positive Rate");
         ("y_label", "True Positive Rate")]
  | CPrecisionRecall =>
      list_to_map
        [("template", "simple"); ("x", "recall"); ("y", "precision");
         ("title", "Precision-Recall Curve");
         ("x_label", "Recall"); ("y_label", "Precision")]
  | CDet =>
      list_to_map
        [("template", "simple"); ("x", "fpr"); ("y", "fnr");
         ("title", "Detection error tradeoff (DET)");
         ("x_label", "False Positive Rate");
         ("y_label", "False Negative Rate")]
  | CConfusionMatrix =>
      list_to_map
        [("template", "confusion"); ("x", "actual"); ("y", "predicted");
         ("title", "Confusion Matrix");
         ("x_label", "True Label"); ("y_label", "Predicted Label")]
  | CCalibration =>
      list_to_map
        [("template", "simple"); ("x", "prob_pred"); ("y", "prob_true");
         ("title", "Calibration Curve");
         ("x_label", "Mean Predicted Probability");
         ("y_label", "Fraction of Positives")]
  end.

(** Where each class keeps its [DEFAULT_PROPERTIES] dictionary. *)
Definition props_loc (c : plot_class) : loc :=
  match c with
  | CRoc => 1
  | CPrecisionRecall => 2
  | CDet => 3
  | CConfusionMatrix => 4
  | CCalibration => 5
  end%positive.

(** The store once the module is imported. *)
Definition module_heap : heap :=
  list_to_map
    (map (λ c, (props_loc c, DEFAULT_PROPERTIES c))
       [CRoc; CPrecisionRecall; CDet; CConfusionMatrix; CCalibration]).

(** [get_properties] of [Roc], [PrecisionRecall], [Det], [Calibration]. *)
Definition simple_get_properties (c : plot_class) (h : heap)
  : option (loc * heap) :=
  Heap.deepcopy (props_loc c) h.

(** [ConfusionMatrix.get_properties]. *)
Definition ConfusionMatrix_get_properties (self : ConfusionMatrixObj) (h : heap)
  : option (loc * heap) :=
  '(properties, h1) ← Heap.deepcopy (props_loc CConfusionMatrix) h;
  let h2 :=
    if Py.truthy self.(normalized)
    then Heap.setitem properties "template" "confusion_normalized" h1
    else h1 in
  Some (properties, h2).

Definition get_properties (p : plot) (h : heap) : option (loc * heap) :=
  match p with
  | ConfusionMatrix self => ConfusionMatrix_get_properties self h
  | _ => simple_get_properties (class_of p) h
  end.

(** ** Serialisation and the five [dump] methods *)

Section Dump.

(** CPython's formatting of floats and of quoted strings. *)
Variable repr_float : spec_float → string.
Variable repr_str : string → string.

(** The routines of scikit-learn the adapters call, each standing for the
    whole call with [y_true], the second array and [**kwargs]: they
    return arrays or raise.  The arrays are taken to hold binary64
    numbers; thresholds that a routine copies from integer scores are
    outside this model. *)
Variable roc_curve : value → value → kwargs →
  result (list spec_float * list spec_float * list spec_float).
Variable precision_recall_curve : value → value → kwargs →
  result (list spec_float * list spec_float * list spec_float).
Variable det_curve : value → value → kwargs →
  result (list spec_float * list spec_float * list spec_float).
Variable calibration_curve : value → value → kwargs →
  result (list spec_float * list spec_float).

(** The member name a dictionary key is written as. *)
Definition key_to_json (k : value) : result string :=
  match k with
  | VStr s => inr s
  | VInt z => inr (pretty z)
  | VBool true => inr "true"
  | VBool false => inr "false"
  | VNone => inr "null"
  | VFloat f => inr (repr_float f)
  | VTuple _ | VList _ | VDict _ => inl TypeError
  end.

(** The JSON document of a Python object. *)
Fixpoint to_json (v : value) : result json :=
  match v with
  | VNone => inr JNull
  | VBool b => inr (JBool b)
  | VInt z => inr (JInt z)
  | VFloat f => inr (JFloat f)
  | VStr s => inr (JStr s)
  | VTuple l | VList l =>
      js ← traverse to_json l;
      mret (JArr js)
  | VDict kvs =>
      ms ← traverse (λ kx, k ← key_to_json (fst kx);
                           j ← to_json (snd kx);
                           mret (k, j)) kvs;
      mret (JObj ms)
  end.

(** Modelled from the spec: [dump_json] of [dvclive/serialize.py], which
    is not among the sources.  It serialises the content as one JSON
    document and stores it at the output path in a single whole-file
    write. *)
Definition dump_json (content : value) (output_file : PurePath) : IO unit :=
  doc ← lift (to_json content);
  FS.write output_file doc.

Definition roc_record (r : spec_float * spec_float * spec_float) : value :=
  let '(fp, tp, t) := r in
  VDict [(VStr "fpr", VFloat fp); (VStr "tpr", VFloat tp);
         (VStr "threshold", VFloat t)].

(** [Roc.dump]. *)
Definition Roc_dump (self : SKLearnPlot) (val : value) (kw : kwargs)
  : IO unit :=
  y_true ← lift (Py.getitem val 0);
  y_score ← lift (Py.getitem val 1);
  '(fpr, tpr, roc_thresholds) ← lift (roc_curve y_true y_score kw);
  let roc :=
    VDict [(VStr "roc",
             VList (map roc_record (Py.zip3 fpr tpr roc_thresholds)))] in
  _path ← output_path self;
  dump_json roc _path.

Definition prc_record (r : spec_float * spec_float * spec_float) : value :=
  let '(p, r, t) := r in
  VDict [(VStr "precision", VFloat p); (VStr "recall", VFloat r);
         (VStr "threshold", VFloat t)].

(** [PrecisionRecall.dump]. *)
Definition PrecisionRecall_dump (self : SKLearnPlot) (val : value)
  (kw : kwargs) : IO unit :=
  y_true ← lift (Py.getitem val 0);
  probas_pred ← lift (Py.getitem val 1);
  '(precision, recall, prc_thresholds) ←
    lift (precision_recall_curve y_true probas_pred kw);
  let prc :=
    VDict [(VStr "precision_recall",
             VList (map prc_record
                      (Py.zip3 precision recall prc_thresholds)))] in
  _path ← output_path self;
  dump_json prc _path.

Definition det_record (r : spec_float * spec_float * spec_float) : value :=
  let '(fp, fn, t) := r in
  VDict [(VStr "fpr", VFloat fp); (VStr "fnr", VFloat fn);
         (VStr "threshold", VFloat t)].

(** [Det.dump]. *)
Definition Det_dump (self : SKLearnPlot) (val : value) (kw : kwargs)
  : IO unit :=
  y_true ← lift (Py.getitem val 0);
  y_score ← lift (Py.getitem val 1);
  '(fpr, fnr, roc_thresholds) ← lift (det_curve y_true y_score kw);
  let det :=
    VDict [(VStr "det",
             VList (map det_record (Py.zip3 fpr fnr roc_thresholds)))] in
  _path ← output_path self;
  dump_json det _path.

Definition cm_record (r : value * value) : value :=
  let '(actual, predicted) := r in
  VDict [(VStr "actual", VStr (Py.str repr_float repr_str actual));
         (VStr "predicted", VStr (Py.str repr_float repr_str predicted))].

(** [ConfusionMatrix.dump]; the keyword arguments are not used. *)
Definition ConfusionMatrix_dump (self : ConfusionMatrixObj) (val : value)
  (kw : kwargs) : IO unit :=
  actuals ← lift (Py.getitem val 0);
  predicteds ← lift (Py.getitem val 1);
  pairs ← lift (Py.zip actuals predicteds);
  let cm := VList (map cm_record pairs) in
  _path ← output_path self.(cm_base);
  dump_json cm _path.

Definition calibration_record (r : spec_float * spec_float) : value :=
  let '(pt, pp) := r in
  VDict [(VStr "prob_true", VFloat pt); (VStr "prob_pred", VFloat pp)].

(** [Calibration.dump]. *)
Definition Calibration_dump (self : SKLearnPlot) (val : value) (kw : kwargs)
  : IO unit :=
  y_true ← lift (Py.getitem val 0);
  y_prob ← lift (Py.getitem val 1);
  '(prob_true, prob_pred) ← lift (calibration_curve y_true y_prob kw);
  let _calibration :=
    VDict [(VStr "calibration",
             VList (map calibration_record (combine prob_true prob_pred)))] in
  _path ← output_path self;
  dump_json _calibration _path.

(** [p.dump(val, **kw)] by the class of [p]. *)
Definition dump (p : plot) (val : value) (kw : kwargs) : IO unit :=
  match p with
  | Roc self => Roc_dump self val kw
  | PrecisionRecall self => PrecisionRecall_dump self val kw
  | Det self => Det_dump self val kw
  | ConfusionMatrix self => ConfusionMatrix_dump self val kw
  | Calibration self => Calibration_dump self val kw
  end.

End Dump.

(** The dictionary [get_properties] hands back, read through the
    reference it returns. *)
Definition properties_of (p : plot) (h : heap) : option pydict :=
  '(l, h') ← get_properties p h;
  h' !! l.

(** What [dump_json(content, self.output_path)] does once the content is
    serialised as [doc]: resolve the path, then store the document. *)
Definition write_at_output_path (self : SKLearnPlot) (doc : json) : IO unit :=
  _path ← output_path self;
  FS.write _path doc.

(** * Properties *)

(** ** Strings: [startswith] and [replace] *)

Section ReplaceFacts.

Implicit Types s a b p : string.

Lemma str_app_nil_l s : "" +:+ s = s.
Proof. reflexivity. Qed.

Lemma str_app_cons c a b : String c a +:+ b = String c (a +:+ b).
Proof. reflexivity. Qed.

Lemma str_app_nil_r s : s +:+ "" = s.
Proof. induction s as [|c s IH]; [done | by rewrite str_app_cons, IH]. Qed.

Lemma str_app_assoc a b c : (a +:+ b) +:+ c = a +:+ b +:+ c.
Proof. induction a as [|x a IH]; [done | by rewrite !str_app_cons, IH]. Qed.

Lemma str_length_app a b :
  String.length (a +:+ b) = String.length a + String.length b.
Proof.
  induction a as [|x a IH]; [done |]. rewrite str_app_cons. simpl. by rewrite IH.
Qed.

Lemma startswith_length p s :
  PyStr.startswith p s = true → String.length p ≤ String.length s.
Proof.
  revert s. induction p as [|x p IH]; intros [|y s]; simpl; try lia; try done.
  intros [_ H]%andb_prop. apply IH in H. lia.
Qed.

Lemma startswith_split p s :
  PyStr.startswith p s = true → ∃ v, s = p +:+ v.
Proof.
  revert s. induction p as [|x p IH]; intros s; simpl.
  - intros _. by exists s.
  - destruct s as [|y s]; [done |].
    intros [Hxy H]%andb_prop. apply Ascii.eqb_eq in Hxy as ->.
    destruct (IH _ H) as [v ->]. by exists v.
Qed.

Lemma startswith_app p v : PyStr.startswith p (p +:+ v) = true.
Proof.
  induction p as [|x p IH]; [done |]. rewrite str_app_cons. simpl.
  by rewrite Ascii.eqb_refl, IH.
Qed.

(** No occurrence of [".json"] starts inside [a] and ends inside a copy
    of [".json"] put after it: the dot is only its first character. *)
Lemma startswith_json_no_straddle c a b :
  PyStr.startswith ".json" (String c a +:+ ".json" +:+ b)
  = PyStr.startswith ".json" (String c a).
Proof.
  destruct a as [|c2 [|c3 [|c4 [|c5 a]]]];
    rewrite ?str_app_cons, ?str_app_nil_l; simpl;
    repeat match goal with
           | |- context [Ascii.eqb ?x ?y] =>
               lazymatch y with
               | Ascii _ _ _ _ _ _ _ _ => fail
               | _ => destruct (Ascii.eqb x y)
               end
           end; reflexivity.
Qed.

Lemma replace_go_json_0 c s :
  PyStr.replace_go ".json" "" 0 (String c s)
  = if PyStr.startswith ".json" (String c s)
    then PyStr.replace_go ".json" "" 4 s
    else String c (PyStr.replace_go ".json" "" 0 s).
Proof. reflexivity. Qed.

(** Dropping [k] pending characters of [a] commutes with what follows
    [a], and a copy of [".json"] after [a] is removed whole. *)
Lemma replace_go_json_app a : ∀ k b,
  k ≤ String.length a →
  PyStr.replace_go ".json" "" k (a +:+ ".json" +:+ b)
  = PyStr.replace_go ".json" "" k a +:+ PyStr.replace_go ".json" "" 0 b.
Proof.
  induction a as [|c a IH]; intros k b Hk.
  - simpl in Hk. assert (k = 0) as -> by lia. reflexivity.
  - destruct k as [|k].
    + pose proof (startswith_json_no_straddle c a b) as Hns.
      rewrite (str_app_cons c a) in Hns |- *.
      rewrite !replace_go_json_0, Hns.
      destruct (PyStr.startswith ".json" (String c a)) eqn:Hsw.
      * apply startswith_length in Hsw. simpl in Hsw.
        apply IH. lia.
      * rewrite (str_app_cons c). f_equal. apply IH. lia.
    + rewrite (str_app_cons c a). simpl. apply IH. simpl in Hk. lia.
Qed.

(** One occurrence is removed wherever it stands; what precedes and what
    follows it are processed on their own. *)
Lemma replace_json_app a b :
  PyStr.replace ".json" "" (a +:+ ".json" +:+ b)
  = PyStr.replace ".json" "" a +:+ PyStr.replace ".json" "" b.
Proof. unfold PyStr.replace. apply replace_go_json_app. lia. Qed.

Lemma replace_json_suffix s :
  PyStr.replace ".json" "" (s +:+ ".json") = PyStr.replace ".json" "" s.
Proof.
  pose proof (replace_json_app s "") as H.
  change (".json" +:+ "") with ".json" in H.
  change (PyStr.replace ".json" "" "") with "" in H.
  by rewrite str_app_nil_r in H.
Qed.

(** A string without an occurrence is left as it is. *)
Lemma replace_json_absent s :
  PyStr.occurs ".json" s = false → PyStr.replace ".json" "" s = s.
Proof.
  unfold PyStr.replace. induction s as [|c s IH]; [done |].
  intros H.
  change (PyStr.occurs ".json" (String c s))
    with (PyStr.startswith ".json" (String c s) || PyStr.occurs ".json" s) in H.
  apply orb_false_elim in H as [Hsw Hocc].
  rewrite replace_go_json_0, Hsw. f_equal. by apply IH.
Qed.

(** Pieces without an occurrence, glued with [".json"]: every glue is
    removed. *)
Lemma replace_json_join pieces :
  Forall (λ p, PyStr.occurs ".json" p = false) pieces →
  PyStr.replace ".json" "" (PyStr.join ".json" pieces)
  = PyStr.join "" pieces.
Proof.
  induction 1 as [|p pieces Hp Hps IH]; [done |].
  destruct pieces as [|q pieces].
  - simpl. by apply replace_json_absent.
  - change (PyStr.join ".json" (p :: q :: pieces))
      with (p +:+ ".json" +:+ PyStr.join ".json" (q :: pieces)).
    change (PyStr.join "" (p :: q :: pieces))
      with (p +:+ "" +:+ PyStr.join "" (q :: pieces)).
    rewrite replace_json_app, IH, str_app_nil_l. f_equal.
    by apply replace_json_absent.
Qed.

End ReplaceFacts.

(** ** The shape check [could_log] *)

(** C1. For every value [x], [could_log x] returns (it raises for no
    value), and it returns true exactly when [x] is a tuple of two
    elements: tuples of one or three elements, lists, dictionaries and
    scalars are all answered with false. *)
Theorem could_log_iff_pair :
  (∀ x : value, ∃ b : bool,
      could_log x = inr b ∧ (b = true ↔ ∃ y z, x = VTuple [y; z]))
  ∧ (∀ y, could_log (VTuple [y]) = inr false)
  ∧ (∀ y z w, could_log (VTuple [y; z; w]) = inr false)
  ∧ (∀ l, could_log (VList l) = inr false)
  ∧ (∀ kvs, could_log (VDict kvs) = inr false)
  ∧ could_log VNone = inr false
  ∧ (∀ b, could_log (VBool b) = inr false)
  ∧ (∀ n, could_log (VInt n) = inr false)
  ∧ (∀ f, could_log (VFloat f) = inr false)
  ∧ (∀ s, could_log (VStr s) = inr false).
Proof.
  split; [| repeat split; reflexivity].
  intros x.
  destruct x as [|b|n|f|s|l|l|kvs];
    try (exists false; split; [reflexivity |];
         split; [discriminate | intros (y & z & Hx); discriminate Hx]); [].
  destruct l as [|y [|z [|w l]]].
  - exists false. split; [reflexivity |].
    split; [discriminate | intros (? & ? & [=])].
  - exists false. split; [reflexivity |].
    split; [discriminate | intros (? & ? & [=])].
  - exists true. split; [reflexivity |]. split; [eauto | done].
  - exists false. split; [reflexivity |].
    split; [discriminate | intros (? & ? & [=])].
Qed.

(** ** Name normalisation in the constructor *)

(** C3. A name with [".json"] put after it gives the same adapter, and so
    the same output path in every file system, as the name itself with the
    same output folder.  The extension is stripped: for a name [n] free of
    [".json"], both [n] and [n.json] are stored as [n] itself.  In
    particular ["foo.json"] and ["foo"] are both stored as ["foo"]. *)
Theorem init_strips_json_extension :
  (∀ (n folder : string) (kw kw' : kwargs),
      SKLearnPlot_init (n +:+ ".json") folder kw = SKLearnPlot_init n folder kw'
      ∧ ∀ σ : fs,
          output_path (SKLearnPlot_init (n +:+ ".json") folder kw) σ
          = output_path (SKLearnPlot_init n folder kw') σ)
  ∧ (∀ (n folder : string) (kw : kwargs),
        PyStr.occurs ".json" n = false →
        (SKLearnPlot_init (n +:+ ".json") folder kw).(name) = n
        ∧ (SKLearnPlot_init n folder kw).(name) = n)
  ∧ (∀ (folder : string) (kw : kwargs),
        (SKLearnPlot_init "foo.json" folder kw).(name) = "foo"
        ∧ ∀ σ : fs,
            output_path (SKLearnPlot_init "foo.json" folder kw) σ
            = output_path (SKLearnPlot_init "foo" folder kw) σ).
Proof.
  assert (∀ (n folder : string) (kw kw' : kwargs),
             SKLearnPlot_init (n +:+ ".json") folder kw
             = SKLearnPlot_init n folder kw') as Heq.
  { intros n folder kw kw'. unfold SKLearnPlot_init, Data_init.
    cbn [name output_folder]. f_equal. apply replace_json_suffix. }
  split; [| split].
  - intros n folder kw kw'. split; [apply Heq |].
    intros σ. by rewrite (Heq n folder kw kw').
  - intros n folder kw Hfree.
    assert ((SKLearnPlot_init n folder kw).(name) = n) as Hn.
    { by apply replace_json_absent. }
    split; [| exact Hn]. by rewrite (Heq n folder kw kw).
  - intros folder kw. split; reflexivity.
Qed.

Lemma init_strips_json_extension_witness :
  PyStr.occurs ".json" "bar" = false
  ∧ (SKLearnPlot_init ("bar" +:+ ".json") "out" ∅).(name) = "bar"
  ∧ (SKLearnPlot_init "bar" "out" ∅).(name) = "bar".
Proof.
  assert (PyStr.occurs ".json" "bar" = false) as H by reflexivity.
  split; [exact H |].
  exact (proj1 (proj2 init_strips_json_extension) "bar" "out" ∅ H).
Defined.

(** C9. The constructor removes every occurrence of [".json"] in the name
    it is given, wherever it stands: an occurrence between [a] and [b]
    disappears and [a] and [b] are normalised on their own; a name made of
    pieces free of [".json"] glued by [".json"] is stored as the pieces put
    together.  So ["a.json_b"] is stored as ["a_b"] is, and
    ["foo.json.json"] as ["foo"] is, with the same output path. *)
Theorem init_removes_every_json :
  (∀ (a b folder : string) (kw : kwargs),
      (SKLearnPlot_init (a +:+ ".json" +:+ b) folder kw).(name)
      = (SKLearnPlot_init a folder kw).(name)
        +:+ (SKLearnPlot_init b folder kw).(name))
  ∧ (∀ (pieces : list string) (folder : string) (kw : kwargs),
        Forall (λ p, PyStr.occurs ".json" p = false) pieces →
        (SKLearnPlot_init (PyStr.join ".json" pieces) folder kw).(name)
        = PyStr.join "" pieces)
  ∧ (∀ (folder : string) (kw : kwargs),
        SKLearnPlot_init "a.json_b" folder kw = SKLearnPlot_init "a_b" folder kw
        ∧ (SKLearnPlot_init "a.json_b" folder kw).(name) = "a_b"
        ∧ ∀ σ : fs,
            output_path (SKLearnPlot_init "a.json_b" folder kw) σ
            = output_path (SKLearnPlot_init "a_b" folder kw) σ)
  ∧ (∀ (folder : string) (kw : kwargs),
        SKLearnPlot_init "foo.json.json" folder kw
        = SKLearnPlot_init "foo" folder kw
        ∧ (SKLearnPlot_init "foo.json.json" folder kw).(name) = "foo"
        ∧ ∀ σ : fs,
            output_path (SKLearnPlot_init "foo.json.json" folder kw) σ
            = output_path (SKLearnPlot_init "foo" folder kw) σ).
Proof.
  split; [| split; [| split]].
  - intros a b folder kw. apply replace_json_app.
  - intros pieces folder kw Hfree. by apply replace_json_join.
  - intros folder kw. repeat split; reflexivity.
  - intros folder kw. repeat split; reflexivity.
Qed.

Lemma init_removes_every_json_witness :
  Forall (λ p, PyStr.occurs ".json" p = false) ["a"; "_b"; "c"]
  ∧ (SKLearnPlot_init (PyStr.join ".json" ["a"; "_b"; "c"]) "out" ∅).(name)
    = PyStr.join "" ["a"; "_b"; "c"].
Proof.
  assert (Forall (λ p, PyStr.occurs ".json" p = false) ["a"; "_b"; "c"]) as H.
  { repeat constructor. }
  split; [exact H |].
  exact (proj1 (proj2 init_removes_every_json) ["a"; "_b"; "c"] "out" ∅ H).
Defined.

(** ** The object store: copies of the property tables *)

Section HeapFacts.

Implicit Types (h : heap) (l : loc) (d : pydict).

Lemma deepcopy_Some h l d :
  h !! l = Some d →
  Heap.deepcopy l h = Some (fresh (dom h), <[fresh (dom h) := d]> h).
Proof. intros H. unfold Heap.deepcopy. by rewrite H. Qed.

Lemma mutate_all_other l (muts : list (pydict → pydict)) : ∀ h l',
  l' ≠ l → Heap.mutate_all l muts h !! l' = h !! l'.
Proof.
  unfold Heap.mutate_all.
  induction muts as [|f muts IH]; intros h l' Hne; [done |].
  simpl. rewrite IH by done. unfold Heap.mutate.
  by rewrite lookup_alter_ne.
Qed.

Lemma mutate_all_dom l (muts : list (pydict → pydict)) : ∀ h,
  dom (Heap.mutate_all l muts h) = dom h.
Proof.
  unfold Heap.mutate_all.
  induction muts as [|f muts IH]; intros h; [done |].
  simpl. rewrite IH. unfold Heap.mutate. apply dom_alter_L.
Qed.

(** What [get_properties] does on a store that holds the class
    dictionary: a new reference, the rest of the store as it was. *)
Lemma get_properties_Some (p : plot) h d :
  h !! props_loc (class_of p) = Some d →
  let ret :=
    match p with
    | ConfusionMatrix self =>
        if Py.truthy self.(normalized)
        then <["template" := "confusion_normalized"]> d
        else d
    | _ => d
    end in
  ∃ h1,
    get_properties p h = Some (fresh (dom h), h1)
    ∧ h1 !! fresh (dom h) = Some ret
    ∧ dom h1 = {[fresh (dom h)]} ∪ dom h
    ∧ ∀ l', l' ≠ fresh (dom h) → h1 !! l' = h !! l'.
Proof.
  intros Hd ret.
  assert (∀ c, h !! props_loc c = Some d →
               simple_get_properties c h
               = Some (fresh (dom h), <[fresh (dom h) := d]> h)) as Hsimple.
  { intros c Hc. unfold simple_get_properties. by apply deepcopy_Some. }
  assert (<[fresh (dom h) := d]> h !! fresh (dom h) = Some d
          ∧ dom (<[fresh (dom h) := d]> h) = {[fresh (dom h)]} ∪ dom h
          ∧ ∀ l', l' ≠ fresh (dom h) →
                  <[fresh (dom h) := d]> h !! l' = h !! l') as (Ha & Hb & Hc).
  { split; [apply lookup_insert_eq |]. split; [apply dom_insert_L |].
    intros l' Hne. by apply lookup_insert_ne. }
  destruct p as [self|self|self|self|self];
    try (eexists; split; [apply (Hsimple _ Hd) | done]).
  change (h !! props_loc CConfusionMatrix = Some d) in Hd.
  subst ret. unfold get_properties, ConfusionMatrix_get_properties.
  rewrite (deepcopy_Some _ _ _ Hd). simpl.
  destruct (Py.truthy (normalized self)).
  - eexists. split; [reflexivity |]. unfold Heap.setitem.
    split; [by rewrite lookup_alter_eq, Ha |].
    split; [by rewrite dom_alter_L |].
    intros l' Hne. rewrite lookup_alter_ne by done. by apply Hc.
  - eexists. split; [reflexivity | done].
Qed.

End HeapFacts.

(** C4. On a store that holds the class defaults, a [ConfusionMatrix]
    built with [normalized=True] gets properties whose template is
    ["confusion_normalized"]; built with [normalized=False] or without the
    flag it gets the template ["confusion"]; every other field is the same
    in the three cases, namely the default. *)
Theorem confusion_matrix_template
  (n folder : string) (kw : kwargs) (h : heap) :
  h !! props_loc CConfusionMatrix = Some (DEFAULT_PROPERTIES CConfusionMatrix) →
  let props (flags : kwargs) :=
    properties_of (ConfusionMatrix (ConfusionMatrix_init n folder flags)) h in
  ∃ dn df d0 : pydict,
    props (<["normalized" := VBool true]> kw) = Some dn
    ∧ props (<["normalized" := VBool false]> kw) = Some df
    ∧ props (delete "normalized" kw) = Some d0
    ∧ dn !! "template" = Some "confusion_normalized"
    ∧ df !! "template" = Some "confusion"
    ∧ d0 !! "template" = Some "confusion"
    ∧ ∀ k : string, k ≠ "template" →
        dn !! k = df !! k ∧ dn !! k = d0 !! k
        ∧ dn !! k = DEFAULT_PROPERTIES CConfusionMatrix !! k.
Proof.
  intros Hd props.
  assert (∀ flags,
             props flags
             = Some (if Py.truthy (Py.or (Py.kwargs_get flags "normalized")
                                      (VBool false))
                     then <["template" := "confusion_normalized"]>
                            (DEFAULT_PROPERTIES CConfusionMatrix)
                     else DEFAULT_PROPERTIES CConfusionMatrix)) as Hprops.
  { intros flags. subst props. unfold properties_of.
    destruct (get_properties_Some
                (ConfusionMatrix (ConfusionMatrix_init n folder flags)) h _ Hd)
      as (h1 & -> & Hl & _).
    simpl. exact Hl. }
  exists (<["template" := "confusion_normalized"]>
            (DEFAULT_PROPERTIES CConfusionMatrix)),
    (DEFAULT_PROPERTIES CConfusionMatrix),
    (DEFAULT_PROPERTIES CConfusionMatrix).
  split; [| split; [| split]].
  - rewrite Hprops. unfold Py.kwargs_get. by rewrite lookup_insert_eq.
  - rewrite Hprops. unfold Py.kwargs_get. by rewrite lookup_insert_eq.
  - rewrite Hprops. unfold Py.kwargs_get. by rewrite lookup_delete_eq.
  - split; [apply lookup_insert_eq |]. split; [reflexivity |].
    split; [reflexivity |].
    intros k Hk. by rewrite lookup_insert_ne.
Qed.

Lemma confusion_matrix_template_witness :
  ∃ dn df d0 : pydict,
    properties_of
      (ConfusionMatrix
         (ConfusionMatrix_init "cm" "out" (<["normalized" := VBool true]> ∅)))
      module_heap = Some dn
    ∧ properties_of
        (ConfusionMatrix
           (ConfusionMatrix_init "cm" "out" (<["normalized" := VBool false]> ∅)))
        module_heap = Some df
    ∧ properties_of
        (ConfusionMatrix
           (ConfusionMatrix_init "cm" "out" (delete "normalized" ∅)))
        module_heap = Some d0
    ∧ dn !! "template" = Some "confusion_normalized"
    ∧ df !! "template" = Some "confusion"
    ∧ d0 !! "template" = Some "confusion"
    ∧ ∀ k : string, k ≠ "template" →
        dn !! k = df !! k ∧ dn !! k = d0 !! k
        ∧ dn !! k = DEFAULT_PROPERTIES CConfusionMatrix !! k.
Proof.
  apply (confusion_matrix_template "cm" "out" ∅ module_heap). reflexivity.
Defined.

(** C7. For every variant, on a store that holds the class dictionary,
    [get_properties] returns a reference that was not allocated before,
    to a dictionary with the defaults (the template replaced for a
    normalised confusion matrix), and touches nothing else.  Whatever is
    then done to the returned dictionary, every other object, the shared
    defaults among them, stays as it was, and the next call returns yet
    another reference, to a dictionary equal to the one first returned. *)
Theorem get_properties_fresh_copy (p : plot) (h : heap) (d : pydict) :
  h !! props_loc (class_of p) = Some d →
  ∃ (l : loc) (h1 : heap) (ret : pydict),
    get_properties p h = Some (l, h1)
    ∧ (l ∉ dom h)
    ∧ h1 !! l = Some ret
    ∧ ret = match p with
            | ConfusionMatrix self =>
                if Py.truthy self.(normalized)
                then <["template" := "confusion_normalized"]> d
                else d
            | _ => d
            end
    ∧ (∀ l', l' ≠ l → h1 !! l' = h !! l')
    ∧ ∀ muts : list (pydict → pydict),
        let h2 := Heap.mutate_all l muts h1 in
        (∀ l', l' ≠ l → h2 !! l' = h !! l')
        ∧ h2 !! props_loc (class_of p) = Some d
        ∧ ∃ (l2 : loc) (h3 : heap),
            get_properties p h2 = Some (l2, h3)
            ∧ l2 ≠ l
            ∧ l2 ≠ props_loc (class_of p)
            ∧ h3 !! l2 = Some ret
            ∧ h3 !! l = h2 !! l.
Proof.
  intros Hd.
  destruct (get_properties_Some p h d Hd) as (h1 & Hget & Hl & Hdom & Hother).
  pose proof (is_fresh (dom h)) as Hfresh.
  assert (props_loc (class_of p) ≠ fresh (dom h)) as Hne.
  { intros Heq. apply Hfresh. rewrite <- Heq. apply elem_of_dom. eauto. }
  eexists _, h1, _. split; [exact Hget |]. split; [exact Hfresh |].
  split; [exact Hl |]. split; [reflexivity |]. split; [exact Hother |].
  intros muts h2.
  assert (∀ l', l' ≠ fresh (dom h) → h2 !! l' = h !! l') as Hother2.
  { intros l' Hl'. subst h2. rewrite mutate_all_other by done.
    by apply Hother. }
  assert (h2 !! props_loc (class_of p) = Some d) as Hd2.
  { by rewrite Hother2. }
  split; [exact Hother2 |]. split; [exact Hd2 |].
  destruct (get_properties_Some p h2 d Hd2) as (h3 & Hget2 & Hl2 & _ & Hother3).
  assert (fresh (dom h2) ≠ fresh (dom h)) as Hne2.
  { assert (dom h2 = {[fresh (dom h)]} ∪ dom h) as Hdom2.
    { unfold h2. by rewrite mutate_all_dom. }
    intros Heq. apply (is_fresh (dom h2)). rewrite Heq at 1. rewrite Hdom2.
    apply elem_of_union_l. by apply elem_of_singleton. }
  exists (fresh (dom h2)), h3. split; [exact Hget2 |]. split; [exact Hne2 |].
  split.
  { intros Heq. apply (is_fresh (dom h2)). rewrite Heq.
    apply elem_of_dom. eauto. }
  split; [exact Hl2 |].
  apply Hother3. done.
Qed.

Lemma get_properties_fresh_copy_witness :
  module_heap !! props_loc CRoc = Some (DEFAULT_PROPERTIES CRoc)
  ∧ ∃ (l : loc) (h1 : heap),
      get_properties (Roc (SKLearnPlot_init "roc" "out" ∅)) module_heap
      = Some (l, h1)
      ∧ (l ∉ dom module_heap).
Proof.
  assert (module_heap !! props_loc (class_of (Roc (SKLearnPlot_init "roc" "out" ∅)))
          = Some (DEFAULT_PROPERTIES CRoc)) as H by reflexivity.
  split; [exact H |].
  destruct (get_properties_fresh_copy _ _ _ H) as (l & h1 & ret & Hg & Hf & _).
  exists l, h1. split; [exact Hg | exact Hf].
Defined.

(** ** Serialising and storing *)

Section IOFacts.

Variable repr_float : spec_float → string.

Lemma traverse_map {A B C : Type}
  (f : B → result C) (g : A → B) (h : A → C) (l : list A) :
  (∀ x, f (g x) = inr (h x)) → traverse f (map g l) = inr (map h l).
Proof.
  intros Hfg. induction l as [|x l IH]; [done |].
  simpl. by rewrite Hfg, IH.
Qed.

Lemma to_json_list {A : Type}
  (g : A → value) (h : A → json) (l : list A) :
  (∀ x, to_json repr_float (g x) = inr (h x)) →
  to_json repr_float (VList (map g l)) = inr (JArr (map h l)).
Proof. intros Hg. simpl. by rewrite (traverse_map _ g h l Hg). Qed.

Lemma bind_lift_inl {A B : Type} (e : exn) (f : A → IO B) (σ : fs) :
  (lift (inl e) ≫= f) σ = (inl e, σ).
Proof. reflexivity. Qed.

Lemma bind_lift_inr {A B : Type} (x : A) (f : A → IO B) (σ : fs) :
  (lift (inr x) ≫= f) σ = f x σ.
Proof. reflexivity. Qed.

Lemma write_inr p doc (σ σ' : fs) :
  FS.write p doc σ = (inr (), σ') → σ' = <[p := File doc]> σ.
Proof.
  unfold FS.write. intros H.
  destruct (FS.is_dir σ p); [done |].
  destruct (FS.is_dir σ (parent p)); [by inversion H |].
  by destruct (σ !! parent p).
Qed.

Lemma write_inl p doc (σ σ' : fs) e :
  FS.write p doc σ = (inl e, σ') → fs_error e ∧ σ' = σ.
Proof.
  unfold FS.write, fs_error. intros H.
  destruct (FS.is_dir σ p); [inversion H; auto |].
  destruct (FS.is_dir σ (parent p)); [done |].
  destruct (σ !! parent p); inversion H; auto.
Qed.

Lemma makedirs_go_inl r todo : ∀ pre (σ σ' : fs) e,
  FS.makedirs_go r pre todo σ = (inl e, σ') → fs_error e.
Proof.
  unfold fs_error.
  induction todo as [|x todo IH]; intros pre σ σ' e H; [done |].
  simpl in H.
  destruct (σ !! {| root := r; parts := pre ++ [x] |}) as [[|doc]|].
  - eapply IH, H.
  - destruct todo; inversion H; auto.
  - eapply IH, H.
Qed.

Lemma output_path_inl self (σ σ' : fs) e :
  output_path self σ = (inl e, σ') → fs_error e.
Proof.
  unfold output_path, FS.mkdir_parents_exist_ok, mbind, IO_bind.
  destruct (FS.makedirs_go _ _ _ σ) as [[e'|[]] σ1] eqn:Hgo; [| done].
  intros [= <- <-]. eapply makedirs_go_inl, Hgo.
Qed.

Lemma write_at_output_path_inr self doc (σ σ' : fs) :
  write_at_output_path self doc σ = (inr (), σ') →
  ∃ p σ1, output_path self σ = (inr p, σ1)
          ∧ σ' = <[p := File doc]> σ1
          ∧ σ' !! p = Some (File doc).
Proof.
  unfold write_at_output_path, mbind, IO_bind.
  destruct (output_path self σ) as [[e|p] σ1]; [done |].
  intros ->%write_inr. exists p, σ1.
  split; [done |]. split; [done |]. apply lookup_insert_eq.
Qed.

Lemma write_at_output_path_inl self doc (σ σ' : fs) e :
  write_at_output_path self doc σ = (inl e, σ') → fs_error e.
Proof.
  unfold write_at_output_path, mbind, IO_bind.
  destruct (output_path self σ) as [[e'|p] σ1] eqn:Hp.
  - intros [= <- <-]. eapply output_path_inl, Hp.
  - intros H. by apply write_inl in H as [? _].
Qed.

Lemma dump_json_at_output_path self content doc (σ : fs) :
  to_json repr_float content = inr doc →
  (_path ← output_path self; dump_json repr_float content _path) σ
  = write_at_output_path self doc σ.
Proof.
  intros Hdoc. unfold write_at_output_path, mbind, IO_bind.
  destruct (output_path self σ) as [[e|p] σ1]; [done |].
  unfold dump_json, lift, mbind, IO_bind. by rewrite Hdoc.
Qed.

End IOFacts.

(** ** The [dump] methods *)

(** C8. In [Roc], [PrecisionRecall], [Det] and [Calibration], when the
    scikit-learn routine raises, [dump] raises the same exception and the
    file system is left exactly as it was: the output path, whose
    resolution creates directories, is only evaluated afterwards. *)
Theorem external_failure_without_effect
  (repr_float : spec_float → string)
  (roc_curve precision_recall_curve det_curve :
     value → value → kwargs →
     result (list spec_float * list spec_float * list spec_float))
  (calibration_curve :
     value → value → kwargs → result (list spec_float * list spec_float))
  (self : SKLearnPlot) (val : value) (kw : kwargs) (σ : fs)
  (y_true y_other : value) (e : exn) :
  Py.getitem val 0 = inr y_true →
  Py.getitem val 1 = inr y_other →
  (roc_curve y_true y_other kw = inl e →
   Roc_dump repr_float roc_curve self val kw σ = (inl e, σ))
  ∧ (precision_recall_curve y_true y_other kw = inl e →
     PrecisionRecall_dump repr_float precision_recall_curve self val kw σ
     = (inl e, σ))
  ∧ (det_curve y_true y_other kw = inl e →
     Det_dump repr_float det_curve self val kw σ = (inl e, σ))
  ∧ (calibration_curve y_true y_other kw = inl e →
     Calibration_dump repr_float calibration_curve self val kw σ = (inl e, σ)).
Proof.
  intros H0 H1.
  repeat split; intros He;
    unfold Roc_dump, PrecisionRecall_dump, Det_dump, Calibration_dump,
      lift, mbind, IO_bind;
    by rewrite H0, H1, He.
Qed.

Lemma external_failure_without_effect_witness :
  let raising3 := λ (_ _ : value) (_ : kwargs),
    inl ValueError : result (list spec_float * list spec_float * list spec_float) in
  let raising2 := λ (_ _ : value) (_ : kwargs),
    inl ValueError : result (list spec_float * list spec_float) in
  let val := VTuple [VList [VInt 0; VInt 1]; VList [VInt 1; VInt 1]] in
  let self := SKLearnPlot_init "roc" "out" ∅ in
  Roc_dump (λ _, "") raising3 self val ∅ ∅ = (inl ValueError, ∅)
  ∧ Calibration_dump (λ _, "") raising2 self val ∅ ∅ = (inl ValueError, ∅).
Proof.
  intros raising3 raising2 val self.
  pose proof (external_failure_without_effect (λ _, "")
                raising3 raising3 raising3 raising2 self val ∅ ∅
                (VList [VInt 0; VInt 1]) (VList [VInt 1; VInt 1]) ValueError
                eq_refl eq_refl) as (Hroc & _ & _ & Hcal).
  split; [exact (Hroc eq_refl) | exact (Hcal eq_refl)].
Defined.

(** C6. On [(["cat","dog"], ["cat","cat"])], [ConfusionMatrix.dump]
    resolves the output path and stores there a bare array of two
    objects, [actual] and [predicted] both strings; when it returns, the
    file at the output path holds exactly that array. *)
Theorem confusion_matrix_dump_cat_dog
  (repr_float : spec_float → string) (repr_str : string → string)
  (self : ConfusionMatrixObj) (kw : kwargs) (σ : fs) :
  let val := VTuple [VList [VStr "cat"; VStr "dog"];
                     VList [VStr "cat"; VStr "cat"]] in
  let doc := JArr [JObj [("actual", JStr "cat"); ("predicted", JStr "cat")];
                   JObj [("actual", JStr "dog"); ("predicted", JStr "cat")]] in
  ConfusionMatrix_dump repr_float repr_str self val kw σ
  = write_at_output_path self.(cm_base) doc σ
  ∧ ∀ σ' : fs,
      ConfusionMatrix_dump repr_float repr_str self val kw σ = (inr (), σ') →
      ∃ (p : PurePath) (σ1 : fs),
        output_path self.(cm_base) σ = (inr p, σ1)
        ∧ σ' = <[p := File doc]> σ1
        ∧ σ' !! p = Some (File doc).
Proof.
  intros val doc.
  assert (ConfusionMatrix_dump repr_float repr_str self val kw σ
          = write_at_output_path self.(cm_base) doc σ) as Heq.
  { unfold ConfusionMatrix_dump.
    change ((_path ← output_path self.(cm_base);
             dump_json repr_float
               (VList (map (cm_record repr_float repr_str)
                         [(VStr "cat", VStr "cat"); (VStr "dog", VStr "cat")]))
               _path) σ = write_at_output_path self.(cm_base) doc σ).
    by apply dump_json_at_output_path. }
  split; [exact Heq |].
  intros σ' H. rewrite Heq in H. by apply write_at_output_path_inr.
Qed.

Lemma confusion_matrix_dump_cat_dog_witness :
  let self := ConfusionMatrix_init "cm" "out" ∅ in
  let val := VTuple [VList [VStr "cat"; VStr "dog"];
                     VList [VStr "cat"; VStr "cat"]] in
  let doc := JArr [JObj [("actual", JStr "cat"); ("predicted", JStr "cat")];
                   JObj [("actual", JStr "dog"); ("predicted", JStr "cat")]] in
  let σ' := (ConfusionMatrix_dump (λ _, "") (λ s, s) self val ∅ ∅).2 in
  ConfusionMatrix_dump (λ _, "") (λ s, s) self val ∅ ∅ = (inr (), σ')
  ∧ ∃ (p : PurePath) (σ1 : fs),
      output_path self.(cm_base) ∅ = (inr p, σ1)
      ∧ σ' = <[p := File doc]> σ1
      ∧ σ' !! p = Some (File doc).
Proof.
  intros self val doc σ'.
  assert (ConfusionMatrix_dump (λ _, "") (λ s, s) self val ∅ ∅ = (inr (), σ'))
    as H by reflexivity.
  split; [exact H |].
  exact (proj2 (confusion_matrix_dump_cat_dog (λ _, "") (λ s, s) self ∅ ∅) σ' H).
Defined.

Section ZipFacts.

Lemma lookup_map {A B : Type} (f : A → B) (l : list A) : ∀ i x,
  l !! i = Some x → map f l !! i = Some (f x).
Proof.
  induction l as [|y l IH]; intros [|i] x H; try done.
  - by inversion H.
  - by apply IH.
Qed.

Lemma lookup_combine {A B : Type} (xs : list A) : ∀ (ys : list B) i x y,
  xs !! i = Some x → ys !! i = Some y → combine xs ys !! i = Some (x, y).
Proof.
  induction xs as [|x' xs IH]; intros [|y' ys] [|i] x y Hx Hy; try done.
  - by inversion Hx; inversion Hy.
  - by apply IH.
Qed.

End ZipFacts.

(** C10. [ConfusionMatrix.dump] on a pair of iterables of any two
    lengths pairs them position by position up to the shorter one: the
    array it stores has that many records, the [i]-th made of the
    [i]-th elements stringified.  Unequal lengths raise nothing: an
    exception of [dump] can only come from the file system.  The keyword
    arguments play no part. *)
Theorem confusion_matrix_dump_zips_to_shorter
  (repr_float : spec_float → string) (repr_str : string → string)
  (self : ConfusionMatrixObj) (a b : value) (xs ys : list value) :
  Py.iter a = inr xs →
  Py.iter b = inr ys →
  ∃ recs : list json,
    length recs = Nat.min (length xs) (length ys)
    ∧ (∀ i x y, xs !! i = Some x → ys !! i = Some y →
         recs !! i
         = Some (JObj [("actual", JStr (Py.str repr_float repr_str x));
                       ("predicted", JStr (Py.str repr_float repr_str y))]))
    ∧ ∀ (kw : kwargs) (σ : fs),
        ConfusionMatrix_dump repr_float repr_str self (VTuple [a; b]) kw σ
        = write_at_output_path self.(cm_base) (JArr recs) σ
        ∧ (∀ kw' : kwargs,
              ConfusionMatrix_dump repr_float repr_str self (VTuple [a; b]) kw σ
              = ConfusionMatrix_dump repr_float repr_str self
                  (VTuple [a; b]) kw' σ)
        ∧ (∀ (e : exn) (σ' : fs),
              ConfusionMatrix_dump repr_float repr_str self (VTuple [a; b]) kw σ
              = (inl e, σ') → fs_error e)
        ∧ (∀ σ' : fs,
              ConfusionMatrix_dump repr_float repr_str self (VTuple [a; b]) kw σ
              = (inr (), σ') →
              ∃ (p : PurePath) (σ1 : fs),
                output_path self.(cm_base) σ = (inr p, σ1)
                ∧ σ' = <[p := File (JArr recs)]> σ1
                ∧ σ' !! p = Some (File (JArr recs))).
Proof.
  intros Ha Hb.
  set (cm_json := λ r : value * value,
         JObj [("actual", JStr (Py.str repr_float repr_str r.1));
               ("predicted", JStr (Py.str repr_float repr_str r.2))]).
  exists (map cm_json (combine xs ys)).
  split; [by rewrite length_map, length_combine |].
  split.
  { intros i x y Hx Hy.
    apply (lookup_map cm_json (combine xs ys) i (x, y)).
    by apply lookup_combine. }
  assert (∀ kw σ,
             ConfusionMatrix_dump repr_float repr_str self (VTuple [a; b]) kw σ
             = write_at_output_path self.(cm_base)
                 (JArr (map cm_json (combine xs ys))) σ) as Heq.
  { intros kw σ. unfold ConfusionMatrix_dump.
    change ((pairs ← lift (Py.zip a b);
             _path ← output_path self.(cm_base);
             dump_json repr_float
               (VList (map (cm_record repr_float repr_str) pairs)) _path) σ
            = write_at_output_path self.(cm_base)
                (JArr (map cm_json (combine xs ys))) σ).
    unfold Py.zip. rewrite Ha, Hb.
    change ((_path ← output_path self.(cm_base);
             dump_json repr_float
               (VList (map (cm_record repr_float repr_str) (combine xs ys)))
               _path) σ
            = write_at_output_path self.(cm_base)
                (JArr (map cm_json (combine xs ys))) σ).
    apply dump_json_at_output_path, to_json_list.
    by intros [x y]. }
  intros kw σ. split; [apply Heq |]. split; [| split].
  - intros kw'. by rewrite !Heq.
  - intros e σ'. rewrite Heq. apply write_at_output_path_inl.
  - intros σ'. rewrite Heq. apply write_at_output_path_inr.
Qed.

Lemma confusion_matrix_dump_zips_to_shorter_witness :
  ∃ recs : list json,
    length recs = 1
    ∧ ConfusionMatrix_dump (λ _, "") (λ s, s)
        (ConfusionMatrix_init "cm" "out" ∅)
        (VTuple [VList [VStr "a"; VStr "b"; VStr "c"]; VTuple [VInt 1]]) ∅ ∅
      = write_at_output_path
          (ConfusionMatrix_init "cm" "out" ∅).(cm_base) (JArr recs) ∅.
Proof.
  destruct (confusion_matrix_dump_zips_to_shorter (λ _, "") (λ s, s)
              (ConfusionMatrix_init "cm" "out" ∅)
              (VList [VStr "a"; VStr "b"; VStr "c"]) (VTuple [VInt 1])
              [VStr "a"; VStr "b"; VStr "c"] [VInt 1] eq_refl eq_refl)
    as (recs & Hlen & _ & Hdump).
  exists recs. split; [exact Hlen |]. exact (proj1 (Hdump ∅ ∅)).
Defined.

(** C5. On a pair of label and score sequences for which the ROC routine
    returns three arrays of one length, [Roc.dump] resolves the output
    path and stores there an object with the single key ["roc"], whose
    array has one record per threshold, the [i]-th with exactly the keys
    [fpr], [tpr] and [threshold] holding the [i]-th entries of the three
    arrays; when [dump] returns, the file at the output path holds it. *)
Theorem roc_dump_records
  (repr_float : spec_float → string)
  (roc_curve : value → value → kwargs →
               result (list spec_float * list spec_float * list spec_float))
  (self : SKLearnPlot) (y_true y_score : value) (kw : kwargs)
  (fpr tpr thresholds : list spec_float) :
  roc_curve y_true y_score kw = inr (fpr, tpr, thresholds) →
  length fpr = length thresholds →
  length tpr = length thresholds →
  ∃ recs : list json,
    length recs = length thresholds
    ∧ (∀ i fp tp t,
         fpr !! i = Some fp → tpr !! i = Some tp → thresholds !! i = Some t →
         recs !! i
         = Some (JObj [("fpr", JFloat fp); ("tpr", JFloat tp);
                       ("threshold", JFloat t)]))
    ∧ ∀ σ : fs,
        Roc_dump repr_float roc_curve self (VTuple [y_true; y_score]) kw σ
        = write_at_output_path self (JObj [("roc", JArr recs)]) σ
        ∧ ∀ σ' : fs,
            Roc_dump repr_float roc_curve self (VTuple [y_true; y_score]) kw σ
            = (inr (), σ') →
            ∃ (p : PurePath) (σ1 : fs),
              output_path self σ = (inr p, σ1)
              ∧ σ' = <[p := File (JObj [("roc", JArr recs)])]> σ1
              ∧ σ' !! p = Some (File (JObj [("roc", JArr recs)])).
Proof.
  intros Hroc Hfpr Htpr.
  set (roc_json := λ r : spec_float * spec_float * spec_float,
         JObj [("fpr", JFloat r.1.1); ("tpr", JFloat r.1.2);
               ("threshold", JFloat r.2)]).
  exists (map roc_json (Py.zip3 fpr tpr thresholds)).
  split.
  { unfold Py.zip3. rewrite length_map, !length_combine. lia. }
  split.
  { intros i fp tp t Hfp Htp Ht.
    apply (lookup_map roc_json (Py.zip3 fpr tpr thresholds) i (fp, tp, t)).
    unfold Py.zip3. by repeat apply lookup_combine. }
  assert (∀ σ,
             Roc_dump repr_float roc_curve self (VTuple [y_true; y_score]) kw σ
             = write_at_output_path self
                 (JObj [("roc", JArr (map roc_json
                                        (Py.zip3 fpr tpr thresholds)))]) σ)
    as Heq.
  { intros σ. unfold Roc_dump.
    change ((r ← lift (roc_curve y_true y_score kw);
             let '(fpr, tpr, roc_thresholds) := r in
             _path ← output_path self;
             dump_json repr_float
               (VDict [(VStr "roc",
                         VList (map roc_record
                                  (Py.zip3 fpr tpr roc_thresholds)))]) _path) σ
            = write_at_output_path self
                (JObj [("roc", JArr (map roc_json
                                       (Py.zip3 fpr tpr thresholds)))]) σ).
    rewrite Hroc.
    change ((_path ← output_path self;
             dump_json repr_float
               (VDict [(VStr "roc",
                         VList (map roc_record
                                  (Py.zip3 fpr tpr thresholds)))]) _path) σ
            = write_at_output_path self
                (JObj [("roc", JArr (map roc_json
                                       (Py.zip3 fpr tpr thresholds)))]) σ).
    apply dump_json_at_output_path.
    assert (to_json repr_float
              (VList (map roc_record (Py.zip3 fpr tpr thresholds)))
            = inr (JArr (map roc_json (Py.zip3 fpr tpr thresholds)))) as Hl.
    { apply to_json_list. by intros [[fp tp] t]. }
    simpl in Hl |- *. by rewrite Hl. }
  intros σ. split; [apply Heq |].
  intros σ'. rewrite Heq. apply write_at_output_path_inr.
Qed.

Lemma roc_dump_records_witness :
  let zero := S754_zero false in
  let half := S754_finite false 4503599627370496 (-53) in
  let one := S754_finite false 4503599627370496 (-52) in
  let fpr := [zero; zero; half; half; one] in
  let tpr := [zero; half; half; one; one] in
  let thresholds :=
    [S754_infinity false;
     S754_finite false 7205759403792794 (-53);
     S754_finite false 7205759403792794 (-54);
     S754_finite false 6305039478318694 (-54);
     S754_finite false 7205759403792794 (-56)] in
  let roc_curve := λ (_ _ : value) (_ : kwargs), inr (fpr, tpr, thresholds) in
  let y_true := VList [VInt 0; VInt 0; VInt 1; VInt 1] in
  let y_score :=
    VList [VFloat (S754_finite false 7205759403792794 (-56));
           VFloat (S754_finite false 7205759403792794 (-54));
           VFloat (S754_finite false 6305039478318694 (-54));
           VFloat (S754_finite false 7205759403792794 (-53))] in
  let self := SKLearnPlot_init "roc" "out" ∅ in
  ∃ recs : list json,
    length recs = 5
    ∧ recs !! 2 = Some (JObj [("fpr", JFloat half); ("tpr", JFloat half);
                              ("threshold",
                                JFloat (S754_finite false 7205759403792794 (-54)))])
    ∧ Roc_dump (λ _, "") roc_curve self (VTuple [y_true; y_score]) ∅ ∅
      = write_at_output_path self (JObj [("roc", JArr recs)]) ∅.
Proof.
  intros zero half one fpr tpr thresholds roc_curve y_true y_score self.
  destruct (roc_dump_records (λ _, "") roc_curve self y_true y_score ∅
              fpr tpr thresholds eq_refl eq_refl eq_refl)
    as (recs & Hlen & Hrec & Hdump).
  exists recs. split; [exact Hlen |].
  split; [exact (Hrec 2 _ _ _ eq_refl eq_refl eq_refl) |].
  exact (proj1 (Hdump ∅)).
Defined.

(** ** Paths: parsing what [str] printed *)

Section PathFacts.

Implicit Types (s x q t : string) (qs : list string) (c : ascii).

Lemma contains_app c a b :
  PyStr.contains c (a +:+ b) = PyStr.contains c a || PyStr.contains c b.
Proof.
  induction a as [|y a IH]; [done |].
  rewrite str_app_cons. simpl. by rewrite IH, orb_assoc.
Qed.

Lemma split_nosep c x : PyStr.contains c x = false → PyStr.split c x = [x].
Proof.
  induction x as [|y x IH]; [done |]. simpl.
  intros [Hy Hx]%orb_false_elim. by rewrite Hy, IH.
Qed.

Lemma split_app_sep c x rest :
  PyStr.contains c x = false →
  PyStr.split c (x +:+ String c rest) = x :: PyStr.split c rest.
Proof.
  induction x as [|y x IH].
  - intros _. rewrite str_app_nil_l. simpl. by rewrite Ascii.eqb_refl.
  - rewrite str_app_cons. simpl. intros [Hy Hx]%orb_false_elim.
    by rewrite Hy, IH.
Qed.

Lemma split_Forall_nosep c s :
  Forall (λ x, PyStr.contains c x = false) (PyStr.split c s).
Proof.
  induction s as [|y s IH]; simpl.
  - by repeat constructor.
  - destruct (Ascii.eqb y c) eqn:Hy; [by constructor |].
    destruct (PyStr.split c s) as [|h tl].
    + repeat constructor. simpl. by rewrite Hy.
    + inversion IH as [|? ? Hh Htl]; subst.
      constructor; [| done]. simpl. by rewrite Hy, Hh.
Qed.

Lemma join_cons_ne sep x qs :
  qs ≠ [] → PyStr.join sep (x :: qs) = x +:+ sep +:+ PyStr.join sep qs.
Proof. by destruct qs. Qed.

Lemma split_join qs :
  qs ≠ [] →
  Forall (λ x, PyStr.contains "/" x = false) qs →
  PyStr.split "/" (PyStr.join "/" qs) = qs.
Proof.
  intros Hne Hall. induction Hall as [|x qs Hx Hqs IH]; [done |].
  destruct qs as [|y qs].
  - simpl. by apply split_nosep.
  - rewrite join_cons_ne by done.
    change ("/" +:+ PyStr.join "/" (y :: qs))
      with (String "/" (PyStr.join "/" (y :: qs))).
    rewrite split_app_sep by done. f_equal. by apply IH.
Qed.

Lemma join_snoc_app sep qs q t :
  PyStr.join sep (qs ++ [q]) +:+ t = PyStr.join sep (qs ++ [q +:+ t]).
Proof.
  induction qs as [|x qs IH]; [done |].
  rewrite <- !app_comm_cons.
  rewrite !join_cons_ne by (by destruct qs).
  by rewrite !str_app_assoc, IH.
Qed.

Lemma filter_split_wf s :
  Forall wf_part (filter is_component (PyStr.split "/" s)).
Proof.
  apply Forall_forall. intros x [Hx Hin]%list_elem_of_filter.
  split; [done |].
  by apply (proj1 (Forall_forall _ _) (split_Forall_nosep "/" s)).
Qed.

Lemma filter_wf_id qs :
  Forall wf_part qs → filter is_component qs = qs.
Proof.
  induction 1 as [|x qs [Hx _] _ IH]; [done |].
  rewrite filter_cons_True by done. by rewrite IH.
Qed.

Lemma parse_wf s : wf_path (parse s).
Proof.
  unfold parse, splitroot. destruct s as [|c s].
  - split; [by left | apply filter_split_wf].
  - destruct (Ascii.eqb c "/").
    + destruct (PyStr.lstrip_count "/" (String c s)) as [n rel].
      split; [| apply filter_split_wf]. simpl.
      destruct (Nat.eqb n 2); auto.
    + split; [by left | apply filter_split_wf].
Qed.

Lemma joinpath_wf p s : wf_path p → wf_path (joinpath p s).
Proof.
  intros [Hr Hp]. unfold joinpath.
  destruct (parse_wf s) as [Hrs Hps].
  destruct (root (parse s)) eqn:Hroot.
  - split; [done |]. simpl. by apply Forall_app.
  - split; [by rewrite Hroot | done].
Qed.

Lemma wf_part_head x :
  wf_part x → ∃ c x', x = String c x' ∧ Ascii.eqb c "/" = false.
Proof.
  intros [[Hne _] Hslash]. destruct x as [|c x']; [done |].
  simpl in Hslash. apply orb_false_elim in Hslash as [Hc _]. eauto.
Qed.

Lemma join_wf_head qs :
  qs ≠ [] → Forall wf_part qs →
  ∃ c s', PyStr.join "/" qs = String c s' ∧ Ascii.eqb c "/" = false.
Proof.
  intros Hne Hall. destruct Hall as [|x qs Hx _]; [done |].
  destruct (wf_part_head x Hx) as (c & x' & -> & Hc).
  destruct qs as [|y qs]; [by eexists _, _ |].
  rewrite join_cons_ne by done. rewrite (str_app_cons c). by eexists _, _.
Qed.

Lemma splitroot_relative c s :
  Ascii.eqb c "/" = false → splitroot (String c s) = ("", String c s).
Proof. intros Hc. unfold splitroot. by rewrite Hc. Qed.

Lemma splitroot_one_slash c s :
  Ascii.eqb c "/" = false →
  splitroot (String "/" (String c s)) = ("/", String c s).
Proof. intros Hc. unfold splitroot. simpl. by rewrite Hc. Qed.

Lemma splitroot_two_slashes c s :
  Ascii.eqb c "/" = false →
  splitroot (String "/" (String "/" (String c s))) = ("//", String c s).
Proof. intros Hc. unfold splitroot. simpl. by rewrite Hc. Qed.

(** Printing a path with components and parsing the text gives the
    path back. *)
Lemma parse_root_join r qs :
  r = "" ∨ r = "/" ∨ r = "//" →
  qs ≠ [] → Forall wf_part qs →
  parse (r +:+ PyStr.join "/" qs) = {| root := r; parts := qs |}.
Proof.
  intros Hr Hne Hall.
  assert (filter is_component (PyStr.split "/" (PyStr.join "/" qs)) = qs)
    as Hparts.
  { rewrite split_join; [by apply filter_wf_id | done |].
    eapply Forall_impl; [exact Hall |]. by intros x [_ ?]. }
  destruct (join_wf_head qs Hne Hall) as (c & s' & Hj & Hc).
  rewrite Hj in Hparts |- *.
  destruct Hr as [-> | [-> | ->]].
  - rewrite str_app_nil_l. unfold parse.
    by rewrite (splitroot_relative c s' Hc), Hparts.
  - change ("/" +:+ String c s') with (String "/" (String c s')).
    unfold parse. by rewrite (splitroot_one_slash c s' Hc), Hparts.
  - change ("//" +:+ String c s')
      with (String "/" (String "/" (String c s'))).
    unfold parse. by rewrite (splitroot_two_slashes c s' Hc), Hparts.
Qed.

Lemma to_str_with_parts p :
  parts p ≠ [] → Forall wf_part (parts p) →
  to_str p = root p +:+ PyStr.join "/" (parts p).
Proof.
  intros Hne Hall. unfold to_str.
  destruct (join_wf_head _ Hne Hall) as (c & s' & -> & _).
  destruct (root p) as [|c' r]; [by rewrite str_app_nil_l |].
  by rewrite str_app_cons.
Qed.

Lemma wf_part_json q : wf_part q → wf_part (q +:+ ".json").
Proof.
  intros Hq. destruct (wf_part_head q Hq) as (c & q' & -> & Hc).
  destruct Hq as [_ Hslash].
  split; [split |].
  - by rewrite str_app_cons.
  - rewrite str_app_cons. intros [= _ Hq'].
    apply (f_equal String.length) in Hq'. rewrite str_length_app in Hq'.
    simpl in Hq'. lia.
  - by rewrite contains_app, Hslash.
Qed.

(** The path [output_path] resolves, for a name that parses to a
    relative path whose components are [qs] and then [q]. *)
Lemma output_path_value base nm qs q :
  wf_path base →
  parse nm = {| root := ""; parts := qs ++ [q] |} →
  parse (to_str (joinpath base nm) +:+ ".json")
  = {| root := root base;
       parts := parts base ++ qs ++ [q +:+ ".json"] |}.
Proof.
  intros [Hr Hbase] Hnm.
  assert (Forall wf_part (qs ++ [q])) as Hqs.
  { pose proof (parse_wf nm) as [_ H]. by rewrite Hnm in H. }
  apply Forall_app in Hqs as [Hqs Hq].
  apply (proj1 (Forall_singleton _ _)) in Hq.
  assert (joinpath base nm
          = {| root := root base; parts := (parts base ++ qs) ++ [q] |})
    as ->.
  { unfold joinpath. rewrite Hnm. simpl. by rewrite (assoc_L (++)). }
  rewrite to_str_with_parts; simpl.
  - rewrite str_app_assoc, join_snoc_app, (assoc_L (++)).
    apply parse_root_join; [done | by destruct (parts base ++ qs) |].
    apply Forall_app_2; [by apply Forall_app_2 |].
    apply Forall_singleton. by apply wf_part_json.
  - by destruct (parts base ++ qs).
  - apply Forall_app_2; [by apply Forall_app_2 |].
    by apply Forall_singleton.
Qed.

End PathFacts.

(** ** The file system: directories made on the way *)

Section FSFacts.

Implicit Types (σ : fs) (p : PurePath).

Lemma makedirs_go_inr r todo : ∀ pre σ σ1,
  FS.makedirs_go r pre todo σ = (inr (), σ1) →
  (∀ k, σ !! k = Some Dir → σ1 !! k = Some Dir)
  ∧ (todo ≠ [] → σ1 !! {| root := r; parts := pre ++ todo |} = Some Dir).
Proof.
  induction todo as [|x todo IH]; intros pre σ σ1 H.
  { inversion H; subst. by split. }
  simpl in H.
  destruct (σ !! {| root := r; parts := pre ++ [x] |}) as [[|doc]|] eqn:Hq.
  - destruct (IH _ _ _ H) as [Hkeep Hlast]. split; [done |]. intros _.
    destruct todo as [|y todo].
    + inversion H; subst. exact Hq.
    + rewrite <- (assoc_L (++) pre [x] (y :: todo)) in Hlast.
      by apply Hlast.
  - by destruct todo.
  - destruct (IH _ _ _ H) as [Hkeep Hlast]. split.
    + intros k Hk. apply Hkeep. rewrite lookup_insert_ne; [done |].
      intros <-. by rewrite Hq in Hk.
    + intros _. destruct todo as [|y todo].
      * inversion H; subst. apply lookup_insert_eq.
      * rewrite <- (assoc_L (++) pre [x] (y :: todo)) in Hlast.
        by apply Hlast.
Qed.

Lemma mkdir_is_dir p σ σ1 :
  FS.mkdir_parents_exist_ok p σ = (inr (), σ1) → FS.is_dir σ1 p = true.
Proof.
  unfold FS.mkdir_parents_exist_ok, FS.is_dir. intros H.
  destruct p as [r ps]. simpl in *. destruct ps as [|x ps]; [done |].
  apply makedirs_go_inr in H as [_ H].
  assert (x :: ps ≠ []) as Hne by done.
  apply H in Hne. simpl in Hne. by rewrite Hne.
Qed.

(** Where no file is in the way, the directories can be made. *)
Lemma makedirs_go_no_files r todo : ∀ pre σ,
  (∀ k doc, σ !! k ≠ Some (File doc)) →
  ∃ σ1, FS.makedirs_go r pre todo σ = (inr (), σ1).
Proof.
  induction todo as [|x todo IH]; intros pre σ Hnf; [by eexists |].
  simpl.
  destruct (σ !! {| root := r; parts := pre ++ [x] |}) as [[|doc]|] eqn:Hq.
  - by apply IH.
  - by apply Hnf in Hq.
  - apply IH. intros k doc.
    destruct (decide ({| root := r; parts := pre ++ [x] |} = k)) as [<-|Hne].
    + by rewrite lookup_insert_eq.
    + rewrite lookup_insert_ne by done. apply Hnf.
Qed.

Lemma output_path_inr self σ q σ1 :
  output_path self σ = (inr q, σ1) →
  q = parse (to_str (joinpath self.(output_folder) self.(name)) +:+ ".json")
  ∧ FS.is_dir σ1 (parent q) = true.
Proof.
  unfold output_path, mbind, IO_bind.
  destruct (FS.mkdir_parents_exist_ok _ σ) as [[e|[]] σ'] eqn:Hmk; [done |].
  intros [= <- <-]. split; [done |]. by eapply mkdir_is_dir.
Qed.

Lemma output_path_no_files self σ :
  (∀ k doc, σ !! k ≠ Some (File doc)) →
  ∃ σ1,
    output_path self σ
    = (inr (parse (to_str (joinpath self.(output_folder) self.(name))
                   +:+ ".json")), σ1).
Proof.
  intros Hnf. unfold output_path, FS.mkdir_parents_exist_ok, mbind, IO_bind.
  edestruct makedirs_go_no_files as [σ1 ->]; [exact Hnf |]. by eexists.
Qed.

(** A [dump] that returns has resolved the output path of its adapter
    and stored some document there. *)
Lemma dump_inr
  (repr_float : spec_float → string) (repr_str : string → string)
  (roc_curve precision_recall_curve det_curve :
     value → value → kwargs →
     result (list spec_float * list spec_float * list spec_float))
  (calibration_curve :
     value → value → kwargs → result (list spec_float * list spec_float))
  (pl : plot) (val : value) (kw : kwargs) σ σ' :
  dump repr_float repr_str roc_curve precision_recall_curve det_curve
    calibration_curve pl val kw σ = (inr (), σ') →
  ∃ doc, write_at_output_path (base_of pl) doc σ = (inr (), σ').
Proof.
  assert (∀ self content,
             (_path ← output_path self;
              dump_json repr_float content _path) σ = (inr (), σ') →
             ∃ doc, write_at_output_path self doc σ = (inr (), σ')) as Hend.
  { intros self content H.
    destruct (to_json repr_float content) as [e|doc] eqn:Hdoc.
    - revert H. unfold mbind, IO_bind.
      destruct (output_path self σ) as [[e'|p] σ1]; [done |].
      unfold dump_json, lift, mbind, IO_bind. by rewrite Hdoc.
    - exists doc. by rewrite <- (dump_json_at_output_path _ _ _ _ _ Hdoc). }
  destruct pl as [self|self|self|self|self]; simpl;
    unfold Roc_dump, PrecisionRecall_dump, Det_dump, ConfusionMatrix_dump,
      Calibration_dump.
  - destruct (Py.getitem val 0) as [e|y0]; [by rewrite bind_lift_inl | rewrite bind_lift_inr].
    destruct (Py.getitem val 1) as [e|y1]; [by rewrite bind_lift_inl | rewrite bind_lift_inr].
    destruct (roc_curve y0 y1 kw) as [e|[[a b] c]]; [by rewrite bind_lift_inl | rewrite bind_lift_inr].
    apply Hend.
  - destruct (Py.getitem val 0) as [e|y0]; [by rewrite bind_lift_inl | rewrite bind_lift_inr].
    destruct (Py.getitem val 1) as [e|y1]; [by rewrite bind_lift_inl | rewrite bind_lift_inr].
    destruct (precision_recall_curve y0 y1 kw) as [e|[[a b] c]]; [by rewrite bind_lift_inl | rewrite bind_lift_inr].
    apply Hend.
  - destruct (Py.getitem val 0) as [e|y0]; [by rewrite bind_lift_inl | rewrite bind_lift_inr].
    destruct (Py.getitem val 1) as [e|y1]; [by rewrite bind_lift_inl | rewrite bind_lift_inr].
    destruct (det_curve y0 y1 kw) as [e|[[a b] c]]; [by rewrite bind_lift_inl | rewrite bind_lift_inr].
    apply Hend.
  - destruct (Py.getitem val 0) as [e|y0]; [by rewrite bind_lift_inl | rewrite bind_lift_inr].
    destruct (Py.getitem val 1) as [e|y1]; [by rewrite bind_lift_inl | rewrite bind_lift_inr].
    destruct (Py.zip y0 y1) as [e|pairs]; [by rewrite bind_lift_inl | rewrite bind_lift_inr].
    apply Hend.
  - destruct (Py.getitem val 0) as [e|y0]; [by rewrite bind_lift_inl | rewrite bind_lift_inr].
    destruct (Py.getitem val 1) as [e|y1]; [by rewrite bind_lift_inl | rewrite bind_lift_inr].
    destruct (calibration_curve y0 y1 kw) as [e|[a b]]; [by rewrite bind_lift_inl | rewrite bind_lift_inr].
    apply Hend.
Qed.

End FSFacts.

(** ** Where the output file goes *)

(** C2, as the spec words it, fails: with an empty name the resolved path
    is [out/sklearn.json], next to the subfolder and not under it, and
    with a name that starts with a slash it is that absolute path with
    [.json] put after it, outside the output folder altogether. *)
Lemma output_path_outside_subfolder :
  let base := joinpath (parse "out") subfolder in
  let p1 := {| root := ""; parts := ["out"; "sklearn.json"] |} in
  let p2 := {| root := "/"; parts := ["tmp"; "x.json"] |} in
  base = {| root := ""; parts := ["out"; "sklearn"] |}
  ∧ (∃ σ1, output_path (SKLearnPlot_init "" "out" ∅) ∅ = (inr p1, σ1))
  ∧ ¬ is_relative_to p1 base
  ∧ (∃ σ1, output_path (SKLearnPlot_init "/tmp/x" "out" ∅) ∅ = (inr p2, σ1))
  ∧ ¬ is_relative_to p2 base.
Proof.
  intros base p1 p2. split; [reflexivity |].
  split; [by eexists |]. split.
  { intros [_ [k Hk]]. simpl in Hk. discriminate Hk. }
  split; [by eexists |].
  intros [Hroot _]. discriminate Hroot.
Qed.

(** C2, amended.  When the stored name, read as a path, is relative and
    has components [qs] followed by [q], the output path is
    [<output_folder>/sklearn/qs/q.json]: it lies under
    [<output_folder>/sklearn] and is not that folder itself.  Whenever
    [output_path] returns, it returns this path and its parent is a
    directory; it does return where no file is in the way; and after a
    [dump] of any variant returns, the parent is a directory and the file
    is there. *)
Theorem output_path_under_subfolder
  (nm folder : string) (kw : kwargs) (qs : list string) (q : string) :
  let self := SKLearnPlot_init nm folder kw in
  let base := joinpath (parse folder) subfolder in
  let p := {| root := root base;
              parts := parts base ++ qs ++ [q +:+ ".json"] |} in
  parse self.(name) = {| root := ""; parts := qs ++ [q] |} →
  base = {| root := root (parse folder);
            parts := parts (parse folder) ++ ["sklearn"] |}
  ∧ is_relative_to p base
  ∧ parts p ≠ parts base
  ∧ parent p = {| root := root base; parts := parts base ++ qs |}
  ∧ (∀ (σ σ1 : fs) (p' : PurePath),
        output_path self σ = (inr p', σ1) →
        p' = p ∧ FS.is_dir σ1 (parent p) = true)
  ∧ (∀ σ : fs,
        (∀ k doc, σ !! k ≠ Some (File doc)) →
        ∃ σ1, output_path self σ = (inr p, σ1))
  ∧ (∀ (repr_float : spec_float → string) (repr_str : string → string)
       (roc_curve precision_recall_curve det_curve :
          value → value → kwargs →
          result (list spec_float * list spec_float * list spec_float))
       (calibration_curve :
          value → value → kwargs →
          result (list spec_float * list spec_float))
       (pl : plot) (val : value) (kw' : kwargs) (σ σ' : fs),
        base_of pl = self →
        dump repr_float repr_str roc_curve precision_recall_curve det_curve
          calibration_curve pl val kw' σ = (inr (), σ') →
        FS.is_dir σ' (parent p) = true
        ∧ ∃ doc, σ' !! p = Some (File doc)).
Proof.
  intros self base p Hnm.
  assert (wf_path base) as Hwf by apply joinpath_wf, parse_wf.
  assert (parse (to_str (joinpath self.(output_folder) self.(name))
                 +:+ ".json") = p) as Hp.
  { apply (output_path_value base _ qs q Hwf Hnm). }
  assert (parent p = {| root := root base; parts := parts base ++ qs |})
    as Hparent.
  { unfold parent, p. simpl. f_equal.
    by rewrite (assoc_L (++)), removelast_last. }
  assert (p ≠ parent p) as Hpne.
  { rewrite Hparent. unfold p. intros [= H].
    apply (f_equal length) in H. rewrite !length_app in H. simpl in H. lia. }
  split; [reflexivity |].
  split; [split; [done | by eexists] |].
  split.
  { unfold p. simpl. intros H. apply (f_equal length) in H.
    rewrite !length_app in H. simpl in H. lia. }
  split; [exact Hparent |].
  split.
  { intros σ σ1 p' H. apply output_path_inr in H as [-> Hdir].
    by rewrite Hp in Hdir |- *. }
  split.
  { intros σ Hnf. destruct (output_path_no_files self σ Hnf) as [σ1 H].
    exists σ1. by rewrite <- Hp. }
  intros rf rs rc prc dc cc pl val kw' σ σ' Hpl Hdump.
  apply dump_inr in Hdump as [doc Hdump]. rewrite Hpl in Hdump.
  apply write_at_output_path_inr in Hdump as (p' & σ1 & Hout & -> & Hfile).
  apply output_path_inr in Hout as [Hp' Hdir].
  rewrite Hp in Hp'. subst p'.
  split; [| by eexists].
  revert Hdir. unfold FS.is_dir.
  destruct (parts (parent p)); [done |].
  by rewrite lookup_insert_ne.
Qed.

Lemma output_path_under_subfolder_witness :
  let self := SKLearnPlot_init "foo.json" "out" ∅ in
  let p := {| root := ""; parts := ["out"; "sklearn"; "foo.json"] |} in
  parse self.(name) = {| root := ""; parts := [] ++ ["foo"] |}
  ∧ is_relative_to p (joinpath (parse "out") subfolder)
  ∧ ∃ σ1, output_path self ∅ = (inr p, σ1).
Proof.
  intros self p.
  assert (parse self.(name) = {| root := ""; parts := [] ++ ["foo"] |}) as H
    by reflexivity.
  split; [exact H |].
  destruct (output_path_under_subfolder "foo.json" "out" ∅ [] "foo" H)
    as (_ & Hrel & _ & _ & _ & Hrun & _).
  split; [exact Hrel |].
  apply Hrun. intros k doc. by rewrite lookup_empty.
Defined.

(** ** Worked examples *)

Example replace_foo_json : PyStr.replace ".json" "" "foo.json" = "foo".
Proof. reflexivity. Qed.

Example replace_inner : PyStr.replace ".json" "" "a.json_b" = "a_b".
Proof. reflexivity. Qed.

(** One pass only: what the removals bring together is not scanned again. *)
Example replace_single_pass : PyStr.replace ".json" "" ".js.jsonon" = ".json".
Proof. reflexivity. Qed.

Example split_slashes : PyStr.split "/" "a//b/" = ["a"; ""; "b"; ""].
Proof. reflexivity. Qed.

Example parse_normalises :
  parse "out//a/./b/" = {| root := ""; parts := ["out"; "a"; "b"] |}
  ∧ parse "//x" = {| root := "//"; parts := ["x"] |}
  ∧ parse "///x" = {| root := "/"; parts := ["x"] |}
  ∧ to_str (parse "") = ".".
Proof. repeat split; reflexivity. Qed.

Example output_path_nested_name :
  (output_path (SKLearnPlot_init "a/b" "out" ∅) ∅).1
  = inr {| root := ""; parts := ["out"; "sklearn"; "a"; "b.json"] |}.
Proof. reflexivity. Qed.

Example output_path_file_in_the_way :
  output_path (SKLearnPlot_init "foo" "out" ∅)
    {[ {| root := ""; parts := ["out"] |} := File JNull ]}
  = (inl NotADirectoryError,
     {[ {| root := ""; parts := ["out"] |} := File JNull ]}).
Proof. reflexivity. Qed.

Example could_log_examples :
  could_log (VTuple [VList [VInt 0]; VList [VInt 1]]) = inr true
  ∧ could_log (VList [VInt 0; VInt 1]) = inr false
  ∧ could_log (VInt 2) = inr false.
Proof. repeat split; reflexivity. Qed.

(** * Further properties of the adapters *)

(** ** Record shape of the other curve variants *)

Section CurveDumps.

Variable repr_float : spec_float → string.

(** Storing a list of records under one key. *)
Lemma keyed_dump_at_output_path self key
  (recs_v : list value) (recs_j : list json) (σ : fs) :
  to_json repr_float (VList recs_v) = inr (JArr recs_j) →
  (_path ← output_path self;
   dump_json repr_float (VDict [(VStr key, VList recs_v)]) _path) σ
  = write_at_output_path self (JObj [(key, JArr recs_j)]) σ.
Proof.
  intros H. apply dump_json_at_output_path.
  simpl in H |- *. destruct (traverse (to_json repr_float) recs_v); [done |].
  by inversion H.
Qed.

Lemma lookup_zip3 {A B C : Type} (a : list A) (b : list B) (c : list C)
  i x y z :
  a !! i = Some x → b !! i = Some y → c !! i = Some z →
  Py.zip3 a b c !! i = Some (x, y, z).
Proof. intros. unfold Py.zip3. by repeat apply lookup_combine. Qed.

Lemma length_zip3 {A B C : Type} (a : list A) (b : list B) (c : list C) :
  length (Py.zip3 a b c)
  = Nat.min (Nat.min (length a) (length b)) (length c).
Proof. unfold Py.zip3. by rewrite !length_combine. Qed.

End CurveDumps.

(** X1. When the precision-recall routine returns three arrays of
    floats, [zip] stops at the shortest of them; whenever
    [PrecisionRecall.dump] then returns, the file at the output path
    holds an object with the single key ["precision_recall"] whose array
    has that many records, each with the keys [precision], [recall],
    [threshold] by position.  (With one threshold fewer than precisions
    and recalls, the last precision and recall are not written.) *)
Theorem precision_recall_dump_records
  (repr_float : spec_float → string)
  (precision_recall_curve :
     value → value → kwargs →
     result (list spec_float * list spec_float * list spec_float))
  (self : SKLearnPlot) (y_true probas_pred : value) (kw : kwargs)
  (precision recall thresholds : list spec_float) :
  precision_recall_curve y_true probas_pred kw
  = inr (precision, recall, thresholds) →
  ∃ recs : list json,
    length recs
    = Nat.min (Nat.min (length precision) (length recall)) (length thresholds)
    ∧ (∀ i p r t,
         precision !! i = Some p → recall !! i = Some r →
         thresholds !! i = Some t →
         recs !! i
         = Some (JObj [("precision", JFloat p); ("recall", JFloat r);
                       ("threshold", JFloat t)]))
    ∧ (length precision = S (length thresholds) →
       length recall = S (length thresholds) →
       length recs = length thresholds)
    ∧ ∀ σ σ' : fs,
        PrecisionRecall_dump repr_float precision_recall_curve self
          (VTuple [y_true; probas_pred]) kw σ = (inr (), σ') →
        ∃ (p : PurePath) (σ1 : fs),
          output_path self σ = (inr p, σ1)
          ∧ σ' = <[p := File (JObj [("precision_recall", JArr recs)])]> σ1
          ∧ σ' !! p = Some (File (JObj [("precision_recall", JArr recs)])).
Proof.
  intros Hprc.
  set (prc_json := λ r : spec_float * spec_float * spec_float,
         JObj [("precision", JFloat r.1.1); ("recall", JFloat r.1.2);
               ("threshold", JFloat r.2)]).
  exists (map prc_json (Py.zip3 precision recall thresholds)).
  assert (length (map prc_json (Py.zip3 precision recall thresholds))
          = Nat.min (Nat.min (length precision) (length recall))
              (length thresholds)) as Hlen.
  { by rewrite length_map, length_zip3. }
  split; [exact Hlen |]. split.
  { intros i p r t Hp Hr Ht.
    apply (lookup_map prc_json _ i (p, r, t)). by apply lookup_zip3. }
  split; [intros H1 H2; rewrite Hlen; lia |].
  intros σ σ'. unfold PrecisionRecall_dump.
  change (Py.getitem (VTuple [y_true; probas_pred]) 0)
    with (inr y_true : result value).
  change (Py.getitem (VTuple [y_true; probas_pred]) 1)
    with (inr probas_pred : result value).
  rewrite !bind_lift_inr, Hprc, bind_lift_inr.
  rewrite (keyed_dump_at_output_path repr_float self "precision_recall" _
             (map prc_json (Py.zip3 precision recall thresholds))).
  - apply write_at_output_path_inr.
  - apply to_json_list. by intros [[p r] t].
Qed.

Lemma precision_recall_dump_records_witness :
  let one := S754_finite false 4503599627370496 (-52) in
  let half := S754_finite false 4503599627370496 (-53) in
  let zero := S754_zero false in
  let routine := λ (_ _ : value) (_ : kwargs),
    inr ([half; one; one], [one; one; zero], [half; one]) in
  let self := SKLearnPlot_init "prc" "out" ∅ in
  let val := VTuple [VList [VInt 0; VInt 1]; VList [VFloat half; VFloat one]] in
  ∃ (recs : list json) (σ' : fs),
    length recs = 2
    ∧ PrecisionRecall_dump (λ _, "") routine self val ∅ ∅ = (inr (), σ')
    ∧ ∃ (p : PurePath) (σ1 : fs),
        output_path self ∅ = (inr p, σ1)
        ∧ σ' = <[p := File (JObj [("precision_recall", JArr recs)])]> σ1
        ∧ σ' !! p = Some (File (JObj [("precision_recall", JArr recs)])).
Proof.
  intros one half zero routine self val.
  destruct (precision_recall_dump_records (λ _, "") routine self
              (VList [VInt 0; VInt 1]) (VList [VFloat half; VFloat one]) ∅
              [half; one; one] [one; one; zero] [half; one] eq_refl)
    as (recs & Hlen & _ & _ & Hdump).
  exists recs, (PrecisionRecall_dump (λ _, "") routine self val ∅ ∅).2.
  assert (PrecisionRecall_dump (λ _, "") routine self val ∅ ∅
          = (inr (), (PrecisionRecall_dump (λ _, "") routine self val ∅ ∅).2))
    as H by reflexivity.
  split; [exact Hlen |]. split; [exact H |]. exact (Hdump _ _ H).
Defined.

(** X2. When the DET routine returns three arrays of floats, [zip] stops
    at the shortest of them; whenever [Det.dump] then returns, the file
    at the output path holds an object with the single key ["det"] whose
    array has that many records, each with the keys [fpr], [fnr],
    [threshold] by position. *)
Theorem det_dump_records
  (repr_float : spec_float → string)
  (det_curve :
     value → value → kwargs →
     result (list spec_float * list spec_float * list spec_float))
  (self : SKLearnPlot) (y_true y_score : value) (kw : kwargs)
  (fpr fnr thresholds : list spec_float) :
  det_curve y_true y_score kw = inr (fpr, fnr, thresholds) →
  ∃ recs : list json,
    length recs
    = Nat.min (Nat.min (length fpr) (length fnr)) (length thresholds)
    ∧ (∀ i fp fn t,
         fpr !! i = Some fp → fnr !! i = Some fn → thresholds !! i = Some t →
         recs !! i
         = Some (JObj [("fpr", JFloat fp); ("fnr", JFloat fn);
                       ("threshold", JFloat t)]))
    ∧ ∀ σ σ' : fs,
        Det_dump repr_float det_curve self (VTuple [y_true; y_score]) kw σ
        = (inr (), σ') →
        ∃ (p : PurePath) (σ1 : fs),
          output_path self σ = (inr p, σ1)
          ∧ σ' = <[p := File (JObj [("det", JArr recs)])]> σ1
          ∧ σ' !! p = Some (File (JObj [("det", JArr recs)])).
Proof.
  intros Hdet.
  set (det_json := λ r : spec_float * spec_float * spec_float,
         JObj [("fpr", JFloat r.1.1); ("fnr", JFloat r.1.2);
               ("threshold", JFloat r.2)]).
  exists (map det_json (Py.zip3 fpr fnr thresholds)).
  split; [by rewrite length_map, length_zip3 |]. split.
  { intros i fp fn t Hfp Hfn Ht.
    apply (lookup_map det_json _ i (fp, fn, t)). by apply lookup_zip3. }
  intros σ σ'. unfold Det_dump.
  change (Py.getitem (VTuple [y_true; y_score]) 0)
    with (inr y_true : result value).
  change (Py.getitem (VTuple [y_true; y_score]) 1)
    with (inr y_score : result value).
  rewrite !bind_lift_inr, Hdet, bind_lift_inr.
  rewrite (keyed_dump_at_output_path repr_float self "det" _
             (map det_json (Py.zip3 fpr fnr thresholds))).
  - apply write_at_output_path_inr.
  - apply to_json_list. by intros [[fp fn] t].
Qed.

Lemma det_dump_records_witness :
  let one := S754_finite false 4503599627370496 (-52) in
  let zero := S754_zero false in
  let routine := λ (_ _ : value) (_ : kwargs),
    inr ([one; zero], [zero; one], [zero; one]) in
  let self := SKLearnPlot_init "det" "out" ∅ in
  let val := VTuple [VList [VInt 0; VInt 1]; VList [VFloat zero; VFloat one]] in
  ∃ (recs : list json) (σ' : fs),
    length recs = 2
    ∧ Det_dump (λ _, "") routine self val ∅ ∅ = (inr (), σ')
    ∧ ∃ (p : PurePath) (σ1 : fs),
        output_path self ∅ = (inr p, σ1)
        ∧ σ' = <[p := File (JObj [("det", JArr recs)])]> σ1
        ∧ σ' !! p = Some (File (JObj [("det", JArr recs)])).
Proof.
  intros one zero routine self val.
  destruct (det_dump_records (λ _, "") routine self
              (VList [VInt 0; VInt 1]) (VList [VFloat zero; VFloat one]) ∅
              [one; zero] [zero; one] [zero; one] eq_refl)
    as (recs & Hlen & _ & Hdump).
  exists recs, (Det_dump (λ _, "") routine self val ∅ ∅).2.
  assert (Det_dump (λ _, "") routine self val ∅ ∅
          = (inr (), (Det_dump (λ _, "") routine self val ∅ ∅).2))
    as H by reflexivity.
  split; [exact Hlen |]. split; [exact H |]. exact (Hdump _ _ H).
Defined.

(** X3. [Calibration.dump] stores an object with the single key
    ["calibration"], one record per position up to the shorter of the two
    arrays, each with the keys [prob_true], [prob_pred] by position. *)
Theorem calibration_dump_records
  (repr_float : spec_float → string)
  (calibration_curve :
     value → value → kwargs → result (list spec_float * list spec_float))
  (self : SKLearnPlot) (y_true y_prob : value) (kw : kwargs)
  (prob_true prob_pred : list spec_float) :
  calibration_curve y_true y_prob kw = inr (prob_true, prob_pred) →
  ∃ recs : list json,
    length recs = Nat.min (length prob_true) (length prob_pred)
    ∧ (∀ i pt pp,
         prob_true !! i = Some pt → prob_pred !! i = Some pp →
         recs !! i
         = Some (JObj [("prob_true", JFloat pt); ("prob_pred", JFloat pp)]))
    ∧ ∀ σ : fs,
        Calibration_dump repr_float calibration_curve self
          (VTuple [y_true; y_prob]) kw σ
        = write_at_output_path self (JObj [("calibration", JArr recs)]) σ.
Proof.
  intros Hcal.
  set (cal_json := λ r : spec_float * spec_float,
         JObj [("prob_true", JFloat r.1); ("prob_pred", JFloat r.2)]).
  exists (map cal_json (combine prob_true prob_pred)).
  split; [by rewrite length_map, length_combine |]. split.
  { intros i pt pp Hpt Hpp.
    apply (lookup_map cal_json _ i (pt, pp)). by apply lookup_combine. }
  intros σ. unfold Calibration_dump.
  change (Py.getitem (VTuple [y_true; y_prob]) 0) with (inr y_true : result value).
  change (Py.getitem (VTuple [y_true; y_prob]) 1) with (inr y_prob : result value).
  rewrite !bind_lift_inr, Hcal, bind_lift_inr.
  apply keyed_dump_at_output_path, to_json_list. by intros [pt pp].
Qed.

Lemma calibration_dump_records_witness :
  let one := S754_finite false 4503599627370496 (-52) in
  let zero := S754_zero false in
  let routine := λ (_ _ : value) (_ : kwargs), inr ([zero; one], [zero; one]) in
  ∃ recs : list json,
    length recs = 2
    ∧ Calibration_dump (λ _, "") routine (SKLearnPlot_init "cal" "out" ∅)
        (VTuple [VList [VInt 0; VInt 1]; VList [VFloat zero; VFloat one]]) ∅ ∅
      = write_at_output_path (SKLearnPlot_init "cal" "out" ∅)
          (JObj [("calibration", JArr recs)]) ∅.
Proof.
  intros one zero routine.
  destruct (calibration_dump_records (λ _, "") routine
              (SKLearnPlot_init "cal" "out" ∅)
              (VList [VInt 0; VInt 1]) (VList [VFloat zero; VFloat one]) ∅
              [zero; one] [zero; one] eq_refl)
    as (recs & Hlen & _ & Hdump).
  exists recs. split; [exact Hlen | exact (Hdump ∅)].
Defined.

(** ** Values of the wrong shape *)

(** X4. In every variant, [dump] indexes [val[0]] and [val[1]] before it
    does anything else: when either index raises (a scalar is not
    subscriptable, a sequence is too short, a dictionary lacks the key),
    [dump] raises that exception and the file system is left as it was. *)
Theorem dump_bad_shape_without_effect
  (repr_float : spec_float → string) (repr_str : string → string)
  (roc_curve precision_recall_curve det_curve :
     value → value → kwargs →
     result (list spec_float * list spec_float * list spec_float))
  (calibration_curve :
     value → value → kwargs → result (list spec_float * list spec_float))
  (pl : plot) (val : value) (kw : kwargs) (σ : fs) (e : exn) :
  Py.getitem val 0 = inl e
  ∨ (∃ y, Py.getitem val 0 = inr y ∧ Py.getitem val 1 = inl e) →
  dump repr_float repr_str roc_curve precision_recall_curve det_curve
    calibration_curve pl val kw σ = (inl e, σ).
Proof.
  intros [H0 | (y & H0 & H1)];
    destruct pl as [self|self|self|self|self]; simpl;
    unfold Roc_dump, PrecisionRecall_dump, Det_dump, ConfusionMatrix_dump,
      Calibration_dump;
    rewrite H0; try rewrite bind_lift_inr; try rewrite H1;
    by rewrite bind_lift_inl.
Qed.

Lemma dump_bad_shape_without_effect_witness :
  let raising3 := λ (_ _ : value) (_ : kwargs),
    inl ValueError : result (list spec_float * list spec_float * list spec_float) in
  let raising2 := λ (_ _ : value) (_ : kwargs),
    inl ValueError : result (list spec_float * list spec_float) in
  dump (λ _, "") (λ s, s) raising3 raising3 raising3 raising2
    (ConfusionMatrix (ConfusionMatrix_init "cm" "out" ∅))
    (VTuple [VList [VInt 1]]) ∅ ∅ = (inl IndexError, ∅)
  ∧ dump (λ _, "") (λ s, s) raising3 raising3 raising3 raising2
      (Roc (SKLearnPlot_init "roc" "out" ∅)) (VInt 3) ∅ ∅ = (inl TypeError, ∅).
Proof.
  intros raising3 raising2. split.
  - apply dump_bad_shape_without_effect. right. by exists (VList [VInt 1]).
  - apply dump_bad_shape_without_effect. by left.
Defined.

Section Loggable.

Lemma could_log_true_inv (val : value) :
  could_log val = inr true → ∃ a b, val = VTuple [a; b].
Proof.
  destruct val as [|b|n|f|s|l|l|kvs]; try discriminate.
  destruct l as [|a [|b [|c l]]]; try discriminate. eauto.
Qed.

Lemma iter_inl (v : value) (e : exn) : Py.iter v = inl e → e = TypeError.
Proof. destruct v; simpl; congruence. Qed.

Lemma zip_inl (a b : value) (e : exn) : Py.zip a b = inl e → e = TypeError.
Proof.
  unfold Py.zip. destruct (Py.iter a) as [e'|xs] eqn:Ha.
  - intros [= <-]. by eapply iter_inl.
  - destruct (Py.iter b) as [e'|ys] eqn:Hb; [| done].
    intros [= <-]. by eapply iter_inl.
Qed.

End Loggable.

(** X5. On a value [could_log] accepts, [ConfusionMatrix.dump] raises
    [TypeError] exactly when a member of the pair is not iterable, and it
    then leaves the file system as it was. *)
Theorem confusion_matrix_dump_type_error_iff
  (repr_float : spec_float → string) (repr_str : string → string)
  (self : ConfusionMatrixObj) (val : value) (kw : kwargs) (σ : fs) :
  could_log val = inr true →
  ∃ a b, val = VTuple [a; b]
  ∧ ((∃ σ', ConfusionMatrix_dump repr_float repr_str self val kw σ
            = (inl TypeError, σ'))
     ↔ (Py.iter a = inl TypeError ∨ Py.iter b = inl TypeError))
  ∧ (∀ σ', ConfusionMatrix_dump repr_float repr_str self val kw σ
           = (inl TypeError, σ') → σ' = σ).
Proof.
  intros (a & b & ->)%could_log_true_inv. exists a, b. split; [done |].
  assert (¬ fs_error TypeError) as Hnfs.
  { unfold fs_error. intros [H | [H | [H | H]]]; discriminate H. }
  unfold ConfusionMatrix_dump.
  change (Py.getitem (VTuple [a; b]) 0) with (inr a : result value).
  change (Py.getitem (VTuple [a; b]) 1) with (inr b : result value).
  rewrite !bind_lift_inr.
  destruct (Py.zip a b) as [e'|pairs] eqn:Hzip.
  - pose proof (zip_inl _ _ _ Hzip) as ->. rewrite bind_lift_inl.
    split; [| by intros σ' [= <-]].
    split; [intros _ | by eexists].
    unfold Py.zip in Hzip.
    destruct (Py.iter a) as [ea|xs] eqn:Ha.
    + left. by rewrite (iter_inl _ _ Ha).
    + destruct (Py.iter b) as [eb|ys] eqn:Hb; [| done].
      right. by rewrite (iter_inl _ _ Hb).
  - rewrite bind_lift_inr.
    rewrite (dump_json_at_output_path repr_float _ _
               (JArr (map (λ r : value * value,
                             JObj [("actual",
                                     JStr (Py.str repr_float repr_str r.1));
                                   ("predicted",
                                     JStr (Py.str repr_float repr_str r.2))])
                        pairs)));
      [| apply to_json_list; by intros [x y]].
    assert (∀ σ', write_at_output_path
                    self.(cm_base)
                    (JArr (map (λ r : value * value,
                                  JObj [("actual",
                                          JStr (Py.str repr_float repr_str r.1));
                                        ("predicted",
                                          JStr (Py.str repr_float repr_str r.2))])
                             pairs)) σ ≠ (inl TypeError, σ')) as Hno.
    { intros σ' H. by apply write_at_output_path_inl in H. }
    split; [| by intros σ' H%Hno].
    split; [by intros [σ' H%Hno] |].
    unfold Py.zip in Hzip.
    destruct (Py.iter a) as [ea|xs]; [done |].
    destruct (Py.iter b) as [eb|ys]; [done |].
    by intros [H | H].
Qed.

Lemma confusion_matrix_dump_type_error_iff_witness :
  could_log (VTuple [VInt 1; VList []]) = inr true
  ∧ ∃ σ', ConfusionMatrix_dump (λ _, "") (λ s, s)
            (ConfusionMatrix_init "cm" "out" ∅)
            (VTuple [VInt 1; VList []]) ∅ ∅ = (inl TypeError, σ').
Proof.
  assert (could_log (VTuple [VInt 1; VList []]) = inr true) as H1
    by reflexivity.
  split; [exact H1 |].
  destruct (confusion_matrix_dump_type_error_iff (λ _, "") (λ s, s)
              (ConfusionMatrix_init "cm" "out" ∅)
              (VTuple [VInt 1; VList []]) ∅ ∅ H1)
    as (a & b & Hval & Hiff & _).
  inversion Hval; subst a b. apply Hiff. by left.
Defined.

(** ** Properties and records *)

(** X6. The template of a [ConfusionMatrix] follows the truth value of
    whatever was passed as [normalized], not only [True] and [False]: it
    is ["confusion_normalized"] exactly when that value is truthy (a
    non-empty string or a non-zero number counts) and ["confusion"]
    exactly when it is falsy or absent. *)
Theorem confusion_matrix_template_iff_truthy
  (n folder : string) (kw : kwargs) (h : heap) :
  h !! props_loc CConfusionMatrix = Some (DEFAULT_PROPERTIES CConfusionMatrix) →
  ∃ d : pydict,
    properties_of (ConfusionMatrix (ConfusionMatrix_init n folder kw)) h
    = Some d
    ∧ (d !! "template" = Some "confusion_normalized"
       ↔ Py.truthy (Py.kwargs_get kw "normalized") = true)
    ∧ (d !! "template" = Some "confusion"
       ↔ Py.truthy (Py.kwargs_get kw "normalized") = false).
Proof.
  intros Hd. unfold properties_of.
  destruct (get_properties_Some
              (ConfusionMatrix (ConfusionMatrix_init n folder kw)) h _ Hd)
    as (h1 & -> & Hl & _).
  simpl in Hl |- *. rewrite Hl. eexists. split; [reflexivity |].
  unfold Py.or. destruct (Py.truthy (Py.kwargs_get kw "normalized")) eqn:Ht.
  - rewrite Ht. rewrite lookup_insert_eq. split; split; congruence.
  - simpl. split; split; try done; try discriminate.
Qed.

Lemma confusion_matrix_template_iff_truthy_witness :
  ∃ d : pydict,
    properties_of
      (ConfusionMatrix
         (ConfusionMatrix_init "cm" "out" {["normalized" := VStr "false"]}))
      module_heap = Some d
    ∧ d !! "template" = Some "confusion_normalized".
Proof.
  destruct (confusion_matrix_template_iff_truthy "cm" "out"
              {["normalized" := VStr "false"]} module_heap eq_refl)
    as (d & Hd & Hnorm & _).
  exists d. split; [exact Hd |]. by apply Hnorm.
Defined.

(** ** Directory creation *)

Section MakedirsFacts.

Implicit Types (σ : fs) (r : string) (pre todo : list string).

Lemma snoc_app_cons {A : Type} (pre : list A) x l :
  (pre ++ [x]) ++ l = pre ++ x :: l.
Proof. by rewrite <- (assoc_L (++)). Qed.

Lemma path_longer_ne r pre x l :
  l ≠ [] →
  {| root := r; parts := pre ++ x :: l |} ≠ {| root := r; parts := pre ++ [x] |}.
Proof.
  intros Hl [= H]. apply (f_equal length) in H.
  rewrite !length_app in H. simpl in H. destruct l; [done | simpl in H; lia].
Qed.

(** Nothing that exists is removed or changed, whatever the outcome. *)
Lemma makedirs_go_preserves r todo : ∀ pre σ res σ1,
  FS.makedirs_go r pre todo σ = (res, σ1) →
  ∀ k v, σ !! k = Some v → σ1 !! k = Some v.
Proof.
  induction todo as [|x todo IH]; intros pre σ res σ1 H k v Hk.
  { by inversion H; subst. }
  simpl in H.
  destruct (σ !! {| root := r; parts := pre ++ [x] |}) as [[|doc]|] eqn:Hq.
  - by eapply IH.
  - by inversion H; subst.
  - eapply IH; [exact H |]. rewrite lookup_insert_ne; [done |].
    intros <-. by rewrite Hq in Hk.
Qed.

(** What is new is a directory on the way. *)
Lemma makedirs_go_new_are_dirs r todo : ∀ pre σ res σ1,
  FS.makedirs_go r pre todo σ = (res, σ1) →
  ∀ k v, σ1 !! k = Some v →
    σ !! k = Some v
    ∨ (v = Dir ∧ ∃ l1 l2, todo = l1 ++ l2 ∧ l1 ≠ []
                          ∧ k = {| root := r; parts := pre ++ l1 |}).
Proof.
  induction todo as [|x todo IH]; intros pre σ res σ1 H k v Hk.
  { inversion H; subst. by left. }
  simpl in H.
  destruct (σ !! {| root := r; parts := pre ++ [x] |}) as [[|doc]|] eqn:Hq.
  - destruct (IH _ _ _ _ H k v Hk) as [? | (-> & l1 & l2 & -> & Hne & ->)];
      [by left |].
    right. split; [done |]. exists (x :: l1), l2.
    split; [done |]. split; [done |]. by rewrite snoc_app_cons.
  - inversion H; subst. by left.
  - destruct (IH _ _ _ _ H k v Hk) as [Hk2 | (-> & l1 & l2 & -> & Hne & ->)].
    + destruct (decide ({| root := r; parts := pre ++ [x] |} = k)) as [<-|Hkq].
      * rewrite lookup_insert_eq in Hk2. inversion Hk2; subst.
        right. split; [done |]. by exists [x], todo.
      * rewrite lookup_insert_ne in Hk2 by done. by left.
    + right. split; [done |]. exists (x :: l1), l2.
      split; [done |]. split; [done |]. by rewrite snoc_app_cons.
Qed.

(** After a success every directory on the way exists. *)
Lemma makedirs_go_inr_prefixes r todo : ∀ pre σ σ1,
  FS.makedirs_go r pre todo σ = (inr (), σ1) →
  ∀ l1 l2, todo = l1 ++ l2 → l1 ≠ [] →
    σ1 !! {| root := r; parts := pre ++ l1 |} = Some Dir.
Proof.
  induction todo as [|x todo IH]; intros pre σ σ1 H l1 l2 Hsplit Hne.
  { by destruct l1. }
  destruct l1 as [|y l1]; [done |]. inversion Hsplit; subst y todo.
  simpl in H.
  destruct (σ !! {| root := r; parts := pre ++ [x] |}) as [[|doc]|] eqn:Hq.
  - destruct l1 as [|z l1].
    + by eapply makedirs_go_preserves.
    + rewrite <- snoc_app_cons. by eapply IH.
  - by destruct (l1 ++ l2).
  - destruct l1 as [|z l1].
    + eapply makedirs_go_preserves; [exact H |]. apply lookup_insert_eq.
    + rewrite <- snoc_app_cons. by eapply IH.
Qed.

(** Where every directory on the way exists, nothing is done. *)
Lemma makedirs_go_noop r todo : ∀ pre σ,
  (∀ l1 l2, todo = l1 ++ l2 → l1 ≠ [] →
     σ !! {| root := r; parts := pre ++ l1 |} = Some Dir) →
  FS.makedirs_go r pre todo σ = (inr (), σ).
Proof.
  induction todo as [|x todo IH]; intros pre σ Hall; [done |].
  simpl. rewrite (Hall [x] todo) by done.
  apply IH. intros l1 l2 -> Hne. rewrite snoc_app_cons.
  by apply (Hall (x :: l1) l2).
Qed.

(** It raises exactly when a file sits somewhere on the way. *)
Lemma makedirs_go_fails_iff r todo : ∀ pre σ,
  (∃ e σ1, FS.makedirs_go r pre todo σ = (inl e, σ1))
  ↔ ∃ l1 l2 doc, todo = l1 ++ l2 ∧ l1 ≠ []
                 ∧ σ !! {| root := r; parts := pre ++ l1 |} = Some (File doc).
Proof.
  induction todo as [|x todo IH]; intros pre σ.
  { split; [by intros (e & σ1 & H) | by intros ([|] & l2 & doc & ? & ? & _)]. }
  simpl.
  destruct (σ !! {| root := r; parts := pre ++ [x] |}) as [[|doc]|] eqn:Hq.
  - rewrite IH. split.
    + intros (l1 & l2 & doc & -> & Hne & Hf).
      exists (x :: l1), l2, doc. rewrite snoc_app_cons in Hf. done.
    + intros ([|y l1] & l2 & doc & Hsplit & Hne & Hf); [done |].
      inversion Hsplit; subst y todo.
      destruct l1 as [|z l1]; [by rewrite Hq in Hf |].
      exists (z :: l1), l2, doc. by rewrite snoc_app_cons.
  - split; [| by eauto].
    intros _. by exists [x], todo, doc.
  - rewrite IH. split.
    + intros (l1 & l2 & doc & -> & Hne & Hf).
      exists (x :: l1), l2, doc. rewrite snoc_app_cons in Hf.
      rewrite lookup_insert_ne in Hf; [done |].
      apply not_eq_sym, path_longer_ne, Hne.
    + intros ([|y l1] & l2 & doc & Hsplit & Hne & Hf); [done |].
      inversion Hsplit; subst y todo.
      destruct l1 as [|z l1]; [by rewrite Hq in Hf |].
      exists (z :: l1), l2, doc. rewrite snoc_app_cons.
      rewrite lookup_insert_ne; [done |].
      by apply not_eq_sym, path_longer_ne.
Qed.

Lemma makedirs_go_inl_kind r todo : ∀ pre σ e σ1,
  FS.makedirs_go r pre todo σ = (inl e, σ1) →
  e = FileExistsError ∨ e = NotADirectoryError.
Proof.
  induction todo as [|x todo IH]; intros pre σ e σ1 H; [done |].
  simpl in H.
  destruct (σ !! {| root := r; parts := pre ++ [x] |}) as [[|doc]|].
  - eapply IH, H.
  - destruct todo; inversion H; auto.
  - eapply IH, H.
Qed.

End MakedirsFacts.

(** X8. Resolving the output path is idempotent: once [output_path] has
    returned, evaluating it again returns the same path and changes
    nothing in the file system. *)
Theorem output_path_idempotent
  (self : SKLearnPlot) (σ σ1 : fs) (p : PurePath) :
  output_path self σ = (inr p, σ1) →
  output_path self σ1 = (inr p, σ1).
Proof.
  unfold output_path, FS.mkdir_parents_exist_ok, mbind, IO_bind.
  destruct (FS.makedirs_go _ _ _ σ) as [[e|[]] σ'] eqn:Hgo; [done |].
  intros [= <- <-].
  rewrite makedirs_go_noop; [done |].
  intros l1 l2 Hsplit Hne.
  by apply (makedirs_go_inr_prefixes _ _ _ _ _ Hgo l1 l2).
Qed.

Lemma output_path_idempotent_witness :
  let self := SKLearnPlot_init "a/b" "out" ∅ in
  let p := {| root := ""; parts := ["out"; "sklearn"; "a"; "b.json"] |} in
  ∃ σ1 : fs,
    output_path self ∅ = (inr p, σ1) ∧ output_path self σ1 = (inr p, σ1).
Proof.
  intros self p. eexists.
  assert (∀ σ1, output_path self ∅ = (inr p, σ1) →
                output_path self ∅ = (inr p, σ1)
                ∧ output_path self σ1 = (inr p, σ1)) as H.
  { intros σ1 H. split; [exact H |].
    exact (output_path_idempotent self ∅ σ1 p H). }
  apply H. reflexivity.
Defined.

(** X9. For a path without [..] components: whatever its outcome,
    [output_path] removes and changes nothing that exists, and all it
    adds are directories above the resolved path. *)
Theorem output_path_only_adds_ancestors
  (self : SKLearnPlot) (σ σ1 : fs) (res : result PurePath) :
  output_path self σ = (res, σ1) →
  let p := parse (to_str (joinpath self.(output_folder) self.(name))
                  +:+ ".json") in
  ".." ∉ parts p →
  (∀ k v, σ !! k = Some v → σ1 !! k = Some v)
  ∧ ∀ k v, σ1 !! k = Some v →
      σ !! k = Some v
      ∨ (v = Dir ∧ parts k ≠ [] ∧ is_relative_to (parent p) k).
Proof.
  intros H p _. revert H.
  unfold output_path, FS.mkdir_parents_exist_ok, mbind, IO_bind. fold p.
  destruct (FS.makedirs_go _ _ _ σ) as [r1 σ'] eqn:Hgo.
  intros H.
  assert (σ1 = σ') as -> by (by destruct r1 as [e|[]]; inversion H).
  split; [by eapply makedirs_go_preserves |].
  intros k v Hk.
  destruct (makedirs_go_new_are_dirs _ _ _ _ _ _ Hgo k v Hk)
    as [? | (-> & l1 & l2 & Hsplit & Hne & ->)]; [by left |].
  right. split; [done |]. split; [by destruct l1 |].
  split; [done |]. rewrite Hsplit. by exists l2.
Qed.

Lemma output_path_only_adds_ancestors_witness :
  let self := SKLearnPlot_init "foo" "out" ∅ in
  let σ : fs := {[ {| root := ""; parts := ["kept"] |} := File JNull ]} in
  (".." ∉ ["out"; "sklearn"; "foo.json"])
  ∧ (output_path self σ).2 !! {| root := ""; parts := ["kept"] |}
    = Some (File JNull).
Proof.
  intros self σ.
  assert (".." ∉ ["out"; "sklearn"; "foo.json"]) as Hdots.
  { intros H. repeat (apply elem_of_cons in H as [H | H]; [discriminate H |]).
    by apply elem_of_nil in H. }
  split; [exact Hdots |].
  apply (proj1 (output_path_only_adds_ancestors self σ _ _ eq_refl Hdots)).
  reflexivity.
Defined.

(** X10. When a file sits at the parent directory of the resolved path,
    or at one of the directories above it, [output_path] raises instead
    of returning a path, and everything that exists stays as it was. *)
Theorem output_path_raises_when_file_on_the_way
  (self : SKLearnPlot) (σ : fs) (l1 l2 : list string) (doc : json) :
  let p := parse (to_str (joinpath self.(output_folder) self.(name))
                  +:+ ".json") in
  parts (parent p) = l1 ++ l2 →
  l1 ≠ [] →
  ".." ∉ parts p →
  σ !! {| root := root p; parts := l1 |} = Some (File doc) →
  ∃ e σ1,
    output_path self σ = (inl e, σ1)
    ∧ ∀ k v, σ !! k = Some v → σ1 !! k = Some v.
Proof.
  intros p Hsplit Hne _ Hfile.
  destruct (proj2 (makedirs_go_fails_iff (root (parent p)) (parts (parent p))
                     [] σ)) as (e & σ1 & Hgo).
  { by exists l1, l2, doc. }
  exists e, σ1. split.
  - unfold output_path, FS.mkdir_parents_exist_ok, mbind, IO_bind. fold p.
    by rewrite Hgo.
  - by eapply makedirs_go_preserves.
Qed.

Lemma output_path_raises_when_file_on_the_way_witness :
  let self := SKLearnPlot_init "foo" "out" ∅ in
  let σ : fs := {[ {| root := ""; parts := ["out"] |} := File JNull ]} in
  ∃ e σ1, output_path self σ = (inl e, σ1)
          ∧ ∀ k v, σ !! k = Some v → σ1 !! k = Some v.
Proof.
  intros self σ.
  apply (output_path_raises_when_file_on_the_way self σ
           ["out"] ["sklearn"] JNull); [done | done | | done].
  intros H. repeat (apply elem_of_cons in H as [H | H]; [discriminate H |]).
  by apply elem_of_nil in H.
Defined.

Section DumpOutcome.

Variable repr_float : spec_float → string.

Lemma dump_json_outcome content path (σ σ' : fs) (res : result unit) :
  dump_json repr_float content path σ = (res, σ') →
  σ' = σ ∨ ∃ doc, res = inr () ∧ σ' = <[path := File doc]> σ.
Proof.
  unfold dump_json, lift, mbind, IO_bind.
  destruct (to_json repr_float content) as [e|doc]; [intros [= <- <-]; by left |].
  unfold FS.write.
  destruct (FS.is_dir σ path); [intros [= <- <-]; by left |].
  destruct (FS.is_dir σ (parent path)).
  - intros [= <- <-]. right. by exists doc.
  - destruct (σ !! parent path); intros [= <- <-]; by left.
Qed.

(** Any run of [dump] either stops before touching the file system or
    goes on to resolve the output path and serialise some content. *)
Lemma dump_outcome
  (repr_str : string → string)
  (roc_curve precision_recall_curve det_curve :
     value → value → kwargs →
     result (list spec_float * list spec_float * list spec_float))
  (calibration_curve :
     value → value → kwargs → result (list spec_float * list spec_float))
  (pl : plot) (val : value) (kw : kwargs) (σ σ' : fs) (res : result unit) :
  dump repr_float repr_str roc_curve precision_recall_curve det_curve
    calibration_curve pl val kw σ = (res, σ') →
  σ' = σ
  ∨ ∃ content,
      (_path ← output_path (base_of pl);
       dump_json repr_float content _path) σ = (res, σ').
Proof.
  destruct pl as [self|self|self|self|self]; simpl;
    unfold Roc_dump, PrecisionRecall_dump, Det_dump, ConfusionMatrix_dump,
      Calibration_dump.
  - destruct (Py.getitem val 0) as [e|y0];
      [rewrite bind_lift_inl; intros [= <- <-]; by left | rewrite bind_lift_inr].
    destruct (Py.getitem val 1) as [e|y1];
      [rewrite bind_lift_inl; intros [= <- <-]; by left | rewrite bind_lift_inr].
    destruct (roc_curve y0 y1 kw) as [e|[[a b] c]];
      [rewrite bind_lift_inl; intros [= <- <-]; by left | rewrite bind_lift_inr].
    intros H. right. eexists. exact H.
  - destruct (Py.getitem val 0) as [e|y0];
      [rewrite bind_lift_inl; intros [= <- <-]; by left | rewrite bind_lift_inr].
    destruct (Py.getitem val 1) as [e|y1];
      [rewrite bind_lift_inl; intros [= <- <-]; by left | rewrite bind_lift_inr].
    destruct (precision_recall_curve y0 y1 kw) as [e|[[a b] c]];
      [rewrite bind_lift_inl; intros [= <- <-]; by left | rewrite bind_lift_inr].
    intros H. right. eexists. exact H.
  - destruct (Py.getitem val 0) as [e|y0];
      [rewrite bind_lift_inl; intros [= <- <-]; by left | rewrite bind_lift_inr].
    destruct (Py.getitem val 1) as [e|y1];
      [rewrite bind_lift_inl; intros [= <- <-]; by left | rewrite bind_lift_inr].
    destruct (det_curve y0 y1 kw) as [e|[[a b] c]];
      [rewrite bind_lift_inl; intros [= <- <-]; by left | rewrite bind_lift_inr].
    intros H. right. eexists. exact H.
  - destruct (Py.getitem val 0) as [e|y0];
      [rewrite bind_lift_inl; intros [= <- <-]; by left | rewrite bind_lift_inr].
    destruct (Py.getitem val 1) as [e|y1];
      [rewrite bind_lift_inl; intros [= <- <-]; by left | rewrite bind_lift_inr].
    destruct (Py.zip y0 y1) as [e|pairs];
      [rewrite bind_lift_inl; intros [= <- <-]; by left | rewrite bind_lift_inr].
    intros H. right. eexists. exact H.
  - destruct (Py.getitem val 0) as [e|y0];
      [rewrite bind_lift_inl; intros [= <- <-]; by left | rewrite bind_lift_inr].
    destruct (Py.getitem val 1) as [e|y1];
      [rewrite bind_lift_inl; intros [= <- <-]; by left | rewrite bind_lift_inr].
    destruct (calibration_curve y0 y1 kw) as [e|[a b]];
      [rewrite bind_lift_inl; intros [= <- <-]; by left | rewrite bind_lift_inr].
    intros H. right. eexists. exact H.
Qed.

End DumpOutcome.

(** X11. For an output path without [..] components: whatever its
    outcome, a [dump] of any variant keeps every entry other than its
    output file (entries at normal paths with the same root as the output
    path and without [..]), and besides its output file adds only
    directories. *)
Theorem dump_touches_only_its_file
  (repr_float : spec_float → string) (repr_str : string → string)
  (roc_curve precision_recall_curve det_curve :
     value → value → kwargs →
     result (list spec_float * list spec_float * list spec_float))
  (calibration_curve :
     value → value → kwargs → result (list spec_float * list spec_float))
  (pl : plot) (val : value) (kw : kwargs) (σ σ' : fs) (res : result unit) :
  dump repr_float repr_str roc_curve precision_recall_curve det_curve
    calibration_curve pl val kw σ = (res, σ') →
  let p := parse (to_str (joinpath (base_of pl).(output_folder)
                            (base_of pl).(name)) +:+ ".json") in
  ".." ∉ parts p →
  (∀ k v,
     root k = root p → Forall wf_part (parts k) → ".." ∉ parts k →
     k ≠ p → σ !! k = Some v → σ' !! k = Some v)
  ∧ (∀ k v, k ≠ p → σ' !! k = Some v → σ !! k = Some v ∨ v = Dir).
Proof.
  intros H p Hdots.
  cut ((∀ k v, k ≠ p → σ !! k = Some v → σ' !! k = Some v)
       ∧ (∀ k v, k ≠ p → σ' !! k = Some v → σ !! k = Some v ∨ v = Dir)).
  { intros [Hkeep Hnew]. split; [| exact Hnew].
    intros k v _ _ _. apply Hkeep. }
  apply dump_outcome in H as [-> | [content H]].
  { split; [done | by left]. }
  revert H. unfold mbind, IO_bind.
  destruct (output_path (base_of pl) σ) as [[e|p'] σ1] eqn:Hout.
  - intros [= <- <-].
    destruct (output_path_only_adds_ancestors _ _ _ _ Hout Hdots)
      as [Hkeep Hnew].
    split; [intros k v _; apply Hkeep |].
    intros k v _ Hk. destruct (Hnew k v Hk) as [? | [-> _]]; auto.
  - intros H.
    destruct (output_path_only_adds_ancestors _ _ _ _ Hout Hdots)
      as [Hkeep Hnew].
    pose proof (proj1 (output_path_inr _ _ _ _ Hout)) as Hp'. fold p in Hp'.
    subst p'.
    apply dump_json_outcome in H as [-> | (doc & -> & ->)].
    + split; [intros k v _; apply Hkeep |].
      intros k v _ Hk. destruct (Hnew k v Hk) as [? | [-> _]]; auto.
    + split.
      * intros k v Hne Hk. rewrite lookup_insert_ne by done. by apply Hkeep.
      * intros k v Hne Hk. rewrite lookup_insert_ne in Hk by done.
        destruct (Hnew k v Hk) as [? | [-> _]]; auto.
Qed.

Lemma dump_touches_only_its_file_witness :
  let self := ConfusionMatrix_init "cm" "out" ∅ in
  let val := VTuple [VList [VStr "a"]; VList [VStr "b"]] in
  let kept := {| root := ""; parts := ["out"; "sklearn"; "other.json"] |} in
  let σ : fs := {[ kept := File (JStr "old") ]} in
  (".." ∉ ["out"; "sklearn"; "cm.json"])
  ∧ (ConfusionMatrix_dump (λ _, "") (λ s, s) self val ∅ σ).2 !! kept
    = Some (File (JStr "old")).
Proof.
  intros self val kept σ.
  set (raising3 := λ (_ _ : value) (_ : kwargs),
         inl ValueError
         : result (list spec_float * list spec_float * list spec_float)).
  set (raising2 := λ (_ _ : value) (_ : kwargs),
         inl ValueError : result (list spec_float * list spec_float)).
  assert (∀ l : list string,
             Forall (λ x, x ≠ "..") l → ".." ∉ l) as Hno.
  { intros l Hl Hin. by apply (proj1 (Forall_forall _ _) Hl ".." Hin). }
  assert (".." ∉ ["out"; "sklearn"; "cm.json"]) as Hdots.
  { apply Hno. by repeat constructor. }
  split; [exact Hdots |].
  apply (proj1 (dump_touches_only_its_file (λ _, "") (λ s, s)
                  raising3 raising3 raising3 raising2
                  (ConfusionMatrix self) val ∅ σ _ _ eq_refl Hdots)).
  - reflexivity.
  - repeat constructor; done.
  - apply Hno. by repeat constructor.
  - discriminate.
  - reflexivity.
Defined.

(** ** The resolved path for every name *)

Section ResolvedPath.

Implicit Types (P base : PurePath) (qs : list string) (q nm : string).

Lemma parse_to_str_json_parts P qs q :
  wf_path P → parts P = qs ++ [q] →
  parse (to_str P +:+ ".json")
  = {| root := root P; parts := qs ++ [q +:+ ".json"] |}.
Proof.
  intros [Hr Hall] Hparts. rewrite Hparts in Hall.
  pose proof (proj1 (Forall_app _ _ _) Hall) as [Hqs Hq].
  apply (proj1 (Forall_singleton _ _)) in Hq.
  rewrite to_str_with_parts; rewrite ?Hparts; [| by destruct qs | done].
  rewrite str_app_assoc, join_snoc_app.
  apply parse_root_join; [done | by destruct qs |].
  apply Forall_app_2; [done |].
  apply Forall_singleton. by apply wf_part_json.
Qed.

Lemma parse_to_str_json_bare P :
  wf_path P → parts P = [] →
  parse (to_str P +:+ ".json")
  = {| root := root P;
       parts := [match root P with
                 | EmptyString => "."
                 | String _ _ => ""
                 end +:+ ".json"] |}.
Proof.
  intros [Hr _] Hparts. destruct P as [r ps]. simpl in *. subst ps.
  by destruct Hr as [-> | [-> | ->]].
Qed.

Lemma init_output_folder nm folder kw :
  (SKLearnPlot_init nm folder kw).(output_folder)
  = {| root := root (parse folder);
       parts := parts (parse folder) ++ ["sklearn"] |}.
Proof. reflexivity. Qed.

Lemma init_output_folder_wf nm folder kw :
  wf_path (SKLearnPlot_init nm folder kw).(output_folder).
Proof. apply joinpath_wf, parse_wf. Qed.

End ResolvedPath.

(** X12. For a name without components (empty, or made of dots and
    slashes that pathlib drops, and not starting with a slash), the
    output path is [<output_folder>/sklearn.json] for every output
    folder: a file beside the subfolder, not under it. *)
Theorem output_path_of_bare_name
  (nm folder : string) (kw : kwargs) (σ σ1 : fs) (p : PurePath) :
  let self := SKLearnPlot_init nm folder kw in
  parse self.(name) = {| root := ""; parts := [] |} →
  output_path self σ = (inr p, σ1) →
  p = {| root := root (parse folder);
         parts := parts (parse folder) ++ ["sklearn.json"] |}
  ∧ ¬ is_relative_to p (joinpath (parse folder) subfolder).
Proof.
  intros self Hnm [-> _]%output_path_inr.
  assert (joinpath self.(output_folder) self.(name) = self.(output_folder))
    as ->.
  { unfold joinpath. rewrite Hnm. simpl. by rewrite (right_id_L [] (++)). }
  rewrite (parse_to_str_json_parts _ (parts (parse folder)) "sklearn");
    [| apply init_output_folder_wf | done].
  split; [done |].
  intros [_ [k Hk]]. simpl in Hk.
  rewrite <- (assoc_L (++)) in Hk. apply app_inv_head in Hk. discriminate Hk.
Qed.

Lemma output_path_of_bare_name_witness :
  let self := SKLearnPlot_init "./.json" "runs/exp1" ∅ in
  let p := {| root := ""; parts := ["runs"; "exp1"; "sklearn.json"] |} in
  parse self.(name) = {| root := ""; parts := [] |}
  ∧ (∃ σ1 : fs, output_path self ∅ = (inr p, σ1))
  ∧ ¬ is_relative_to p (joinpath (parse "runs/exp1") subfolder).
Proof.
  intros self p.
  assert (parse self.(name) = {| root := ""; parts := [] |}) as H1
    by reflexivity.
  assert (∀ σ1, output_path self ∅ = (inr p, σ1) →
                ¬ is_relative_to p (joinpath (parse "runs/exp1") subfolder))
    as H.
  { intros σ1 H2.
    exact (proj2 (output_path_of_bare_name "./.json" "runs/exp1" ∅ ∅ σ1 p
                    H1 H2)). }
  split; [exact H1 |]. split; [by eexists |].
  eapply H. reflexivity.
Defined.

(** X13. For a name that starts with a slash the output folder plays no
    part: the output path is the name's own absolute path with [.json]
    put after it, the same whatever the output folder. *)
Theorem output_path_of_absolute_name
  (nm folder folder' : string) (kw kw' : kwargs)
  (σ σ1 σ' σ1' : fs) (p p' : PurePath) :
  root (parse (SKLearnPlot_init nm folder kw).(name)) ≠ "" →
  output_path (SKLearnPlot_init nm folder kw) σ = (inr p, σ1) →
  output_path (SKLearnPlot_init nm folder' kw') σ' = (inr p', σ1') →
  p = p'
  ∧ p = parse (to_str (parse (PyStr.replace ".json" "" nm)) +:+ ".json")
  ∧ root p = root (parse (PyStr.replace ".json" "" nm)).
Proof.
  intros Hroot [-> _]%output_path_inr [-> _]%output_path_inr.
  assert (∀ f k,
             joinpath (SKLearnPlot_init nm f k).(output_folder)
               (SKLearnPlot_init nm f k).(name)
             = parse (PyStr.replace ".json" "" nm)) as Hjoin.
  { intros f k. unfold joinpath.
    change ((SKLearnPlot_init nm f k).(name))
      with (PyStr.replace ".json" "" nm).
    change ((SKLearnPlot_init nm folder kw).(name))
      with (PyStr.replace ".json" "" nm) in Hroot.
    by destruct (root (parse (PyStr.replace ".json" "" nm))). }
  rewrite !Hjoin. split; [done |]. split; [done |].
  pose proof (parse_wf (PyStr.replace ".json" "" nm)) as Hwf.
  destruct (parts (parse (PyStr.replace ".json" "" nm))) as [|x l] eqn:Hparts
    using rev_ind.
  - by rewrite (parse_to_str_json_bare _ Hwf Hparts).
  - by rewrite (parse_to_str_json_parts _ _ _ Hwf Hparts).
Qed.

Lemma output_path_of_absolute_name_witness :
  let p := {| root := "/"; parts := ["tmp"; "x.json"] |} in
  root (parse (SKLearnPlot_init "/tmp/x" "out" ∅).(name)) ≠ ""
  ∧ (∃ σ1 : fs,
        output_path (SKLearnPlot_init "/tmp/x" "out" ∅) ∅ = (inr p, σ1))
  ∧ (∃ σ1 : fs,
        output_path (SKLearnPlot_init "/tmp/x" "elsewhere" ∅) ∅ = (inr p, σ1))
  ∧ p = parse (to_str (parse (PyStr.replace ".json" "" "/tmp/x")) +:+ ".json").
Proof.
  intros p.
  assert (root (parse (SKLearnPlot_init "/tmp/x" "out" ∅).(name)) ≠ "") as H0
    by discriminate.
  assert (∀ σ1 σ1',
             output_path (SKLearnPlot_init "/tmp/x" "out" ∅) ∅ = (inr p, σ1) →
             output_path (SKLearnPlot_init "/tmp/x" "elsewhere" ∅) ∅
             = (inr p, σ1') →
             p = parse (to_str (parse (PyStr.replace ".json" "" "/tmp/x"))
                        +:+ ".json")) as H.
  { intros σ1 σ1' H1 H2.
    exact (proj1 (proj2 (output_path_of_absolute_name "/tmp/x" "out"
                           "elsewhere" ∅ ∅ ∅ σ1 ∅ σ1' p p H0 H1 H2))). }
  split; [exact H0 |]. split; [by eexists |]. split; [by eexists |].
  eapply H; reflexivity.
Defined.

(** X14. For every name and every output folder, the path [output_path]
    returns has at least one component and its last component ends in
    [.json]; its root is that of the folder joined with the name. *)
Theorem output_path_ends_in_json
  (nm folder : string) (kw : kwargs) (σ σ1 : fs) (p : PurePath) :
  let self := SKLearnPlot_init nm folder kw in
  output_path self σ = (inr p, σ1) →
  ∃ qs q,
    parts p = qs ++ [q +:+ ".json"]
    ∧ root p = root (joinpath self.(output_folder) self.(name)).
Proof.
  intros self [-> _]%output_path_inr.
  assert (wf_path (joinpath self.(output_folder) self.(name))) as Hwf.
  { apply joinpath_wf, init_output_folder_wf. }
  destruct (parts (joinpath self.(output_folder) self.(name)))
    as [|x l] eqn:Hparts using rev_ind.
  - rewrite (parse_to_str_json_bare _ Hwf Hparts). by eexists [], _.
  - rewrite (parse_to_str_json_parts _ _ _ Hwf Hparts). by eexists _, _.
Qed.

Lemma output_path_ends_in_json_witness :
  ∃ qs q,
    parts {| root := "/"; parts := [".json"] |} = qs ++ [q +:+ ".json"]
    ∧ root {| root := "/"; parts := [".json"] |}
      = root (joinpath (SKLearnPlot_init "/" "out" ∅).(output_folder)
                (SKLearnPlot_init "/" "out" ∅).(name)).
Proof.
  eapply (output_path_ends_in_json "/" "out" ∅ ∅). reflexivity.
Defined.

(** ** How much the constructor removes *)

Section ReplaceLength.

Lemma replace_go_json_length (s : string) : ∀ k,
  String.length (PyStr.replace_go ".json" "" k s) + Nat.min k (String.length s)
  ≤ String.length s.
Proof.
  induction s as [|c s IH]; intros k; [simpl; lia |].
  destruct k as [|k].
  - rewrite replace_go_json_0.
    destruct (PyStr.startswith ".json" (String c s)) eqn:Hsw.
    + apply startswith_length in Hsw. simpl in Hsw.
      specialize (IH 4). simpl. lia.
    + specialize (IH 0). simpl in *. lia.
  - specialize (IH k). simpl. lia.
Qed.

Lemma replace_json_shorter (s : string) :
  PyStr.occurs ".json" s = true →
  String.length (PyStr.replace ".json" "" s) + 5 ≤ String.length s.
Proof.
  unfold PyStr.replace. induction s as [|c s IH]; [done |].
  change (PyStr.occurs ".json" (String c s))
    with (PyStr.startswith ".json" (String c s) || PyStr.occurs ".json" s).
  rewrite replace_go_json_0.
  destruct (PyStr.startswith ".json" (String c s)) eqn:Hsw.
  - intros _. apply startswith_length in Hsw. simpl in Hsw.
    pose proof (replace_go_json_length s 4). simpl. lia.
  - simpl. intros H%IH. lia.
Qed.

End ReplaceLength.

(** X15. The constructor stores the name it was given unchanged exactly
    when [".json"] does not occur in it; otherwise the stored name is
    shorter by at least the five characters of one occurrence.  It is
    never longer. *)
Theorem init_name_unchanged_iff (nm folder : string) (kw : kwargs) :
  let stored := (SKLearnPlot_init nm folder kw).(name) in
  (stored = nm ↔ PyStr.occurs ".json" nm = false)
  ∧ (PyStr.occurs ".json" nm = true →
     String.length stored + 5 ≤ String.length nm)
  ∧ String.length stored ≤ String.length nm.
Proof.
  intros stored.
  change stored with (PyStr.replace ".json" "" nm). clear stored.
  split; [| split].
  - split; [| apply replace_json_absent].
    intros Heq. destruct (PyStr.occurs ".json" nm) eqn:Hocc; [| done].
    apply replace_json_shorter in Hocc. rewrite Heq in Hocc. lia.
  - apply replace_json_shorter.
  - pose proof (replace_go_json_length nm 0) as H. unfold PyStr.replace.
    simpl in H. lia.
Qed.

(** ** One file per normalised name *)

Section NameInjective.

Lemma str_app_inv_tail (a : string) : ∀ b t : string,
  a +:+ t = b +:+ t → a = b.
Proof.
  induction a as [|x a IH]; intros [|y b] t H; [done | | |].
  - apply (f_equal String.length) in H.
    rewrite !str_length_app in H. simpl in H. lia.
  - apply (f_equal String.length) in H.
    rewrite !str_length_app in H. simpl in H. lia.
  - rewrite !str_app_cons in H. inversion H; subst. f_equal. by eapply IH.
Qed.

End NameInjective.

(** X16. Two adapters with the same output folder whose stored names are
    relative paths with components get equal output paths, as pathlib
    compares paths, exactly when the stored names are equal as pathlib
    paths. *)
Theorem output_path_same_iff_same_name
  (n1 n2 folder : string) (kw1 kw2 : kwargs)
  (qs1 qs2 : list string) (q1 q2 : string)
  (σ1 σ2 τ1 τ2 : fs) (p1 p2 : PurePath) :
  parse (SKLearnPlot_init n1 folder kw1).(name)
  = {| root := ""; parts := qs1 ++ [q1] |} →
  parse (SKLearnPlot_init n2 folder kw2).(name)
  = {| root := ""; parts := qs2 ++ [q2] |} →
  output_path (SKLearnPlot_init n1 folder kw1) σ1 = (inr p1, τ1) →
  output_path (SKLearnPlot_init n2 folder kw2) σ2 = (inr p2, τ2) →
  (p1 = p2
   ↔ parse (SKLearnPlot_init n1 folder kw1).(name)
     = parse (SKLearnPlot_init n2 folder kw2).(name)).
Proof.
  intros Hn1 Hn2 [-> _]%output_path_inr [-> _]%output_path_inr.
  rewrite (output_path_value _ _ qs1 q1 (init_output_folder_wf n1 folder kw1) Hn1).
  rewrite (output_path_value _ _ qs2 q2 (init_output_folder_wf n2 folder kw2) Hn2).
  rewrite Hn1, Hn2, !init_output_folder. simpl. split.
  - intros [= H]. apply app_inv_head in H.
    apply app_inj_tail in H as [-> H]. by apply str_app_inv_tail in H as ->.
  - intros [= H]. apply app_inj_tail in H as [-> ->]. done.
Qed.

Lemma output_path_same_iff_same_name_witness :
  let a1 := SKLearnPlot_init "a//b.json" "out" ∅ in
  let a2 := SKLearnPlot_init "a/b" "out" ∅ in
  let p := {| root := ""; parts := ["out"; "sklearn"; "a"; "b.json"] |} in
  parse a1.(name) = parse a2.(name)
  ∧ (∃ τ1, output_path a1 ∅ = (inr p, τ1))
  ∧ (∃ τ2, output_path a2 ∅ = (inr p, τ2)).
Proof.
  intros a1 a2 p.
  assert (∀ τ1 τ2 p2,
             output_path a1 ∅ = (inr p, τ1) →
             output_path a2 ∅ = (inr p2, τ2) →
             (p = p2 ↔ parse a1.(name) = parse a2.(name))) as H.
  { intros τ1 τ2 p2 H1 H2.
    exact (output_path_same_iff_same_name "a//b.json" "a/b" "out" ∅ ∅
             ["a"] ["a"] "b" "b" ∅ ∅ τ1 τ2 p p2 eq_refl eq_refl H1 H2). }
  split; [| split; by eexists].
  eapply H; reflexivity.
Defined.

(** ** The documents of the curve records *)

Section CurveRecords.

Variable repr_float : spec_float → string.

Lemma to_json_roc_records l :
  to_json repr_float (VList (map roc_record l))
  = inr (JArr (map (λ r : spec_float * spec_float * spec_float,
                      JObj [("fpr", JFloat r.1.1); ("tpr", JFloat r.1.2);
                            ("threshold", JFloat r.2)]) l)).
Proof. apply to_json_list. by intros [[a b] c]. Qed.

Lemma to_json_prc_records l :
  to_json repr_float (VList (map prc_record l))
  = inr (JArr (map (λ r : spec_float * spec_float * spec_float,
                      JObj [("precision", JFloat r.1.1);
                            ("recall", JFloat r.1.2);
                            ("threshold", JFloat r.2)]) l)).
Proof. apply to_json_list. by intros [[a b] c]. Qed.

Lemma to_json_det_records l :
  to_json repr_float (VList (map det_record l))
  = inr (JArr (map (λ r : spec_float * spec_float * spec_float,
                      JObj [("fpr", JFloat r.1.1); ("fnr", JFloat r.1.2);
                            ("threshold", JFloat r.2)]) l)).
Proof. apply to_json_list. by intros [[a b] c]. Qed.

Lemma to_json_calibration_records l :
  to_json repr_float (VList (map calibration_record l))
  = inr (JArr (map (λ r : spec_float * spec_float,
                      JObj [("prob_true", JFloat r.1);
                            ("prob_pred", JFloat r.2)]) l)).
Proof. apply to_json_list. by intros [a b]. Qed.

End CurveRecords.

Lemma init_name_unchanged_iff_witness :
  PyStr.occurs ".json" "a.json_b" = true
  ∧ String.length (SKLearnPlot_init "a.json_b" "out" ∅).(name) + 5
    ≤ String.length "a.json_b".
Proof.
  assert (PyStr.occurs ".json" "a.json_b" = true) as H by reflexivity.
  split; [exact H |].
  exact (proj1 (proj2 (init_name_unchanged_iff "a.json_b" "out" ∅)) H).
Defined.

(** ** What a returning [dump] has stored *)

Section DumpDocument.

Variable repr_float : spec_float → string.
Variable repr_str : string → string.

Lemma Forall_map_intro {A B : Type} (P : B → Prop) (f : A → B) (l : list A) :
  (∀ x, P (f x)) → Forall P (map f l).
Proof. intros H. induction l; constructor; auto. Qed.

Lemma to_json_cm_records l :
  to_json repr_float (VList (map (cm_record repr_float repr_str) l))
  = inr (JArr (map (λ r : value * value,
                      JObj [("actual", JStr (Py.str repr_float repr_str r.1));
                            ("predicted",
                              JStr (Py.str repr_float repr_str r.2))]) l)).
Proof. apply to_json_list. by intros [a b]. Qed.

(** The document a returning [dump] has stored, variant by variant. *)
Lemma dump_inr_document
  (roc_curve precision_recall_curve det_curve :
     value → value → kwargs →
     result (list spec_float * list spec_float * list spec_float))
  (calibration_curve :
     value → value → kwargs → result (list spec_float * list spec_float))
  (pl : plot) (val : value) (kw : kwargs) (σ σ' : fs) :
  dump repr_float repr_str roc_curve precision_recall_curve det_curve
    calibration_curve pl val kw σ = (inr (), σ') →
  ∃ doc,
    write_at_output_path (base_of pl) doc σ = (inr (), σ')
    ∧ match pl with
      | Roc _ =>
          ∃ l, doc = JObj [("roc", JArr (map
                 (λ r : spec_float * spec_float * spec_float,
                    JObj [("fpr", JFloat r.1.1); ("tpr", JFloat r.1.2);
                          ("threshold", JFloat r.2)]) l))]
      | PrecisionRecall _ =>
          ∃ l, doc = JObj [("precision_recall", JArr (map
                 (λ r : spec_float * spec_float * spec_float,
                    JObj [("precision", JFloat r.1.1);
                          ("recall", JFloat r.1.2);
                          ("threshold", JFloat r.2)]) l))]
      | Det _ =>
          ∃ l, doc = JObj [("det", JArr (map
                 (λ r : spec_float * spec_float * spec_float,
                    JObj [("fpr", JFloat r.1.1); ("fnr", JFloat r.1.2);
                          ("threshold", JFloat r.2)]) l))]
      | ConfusionMatrix _ =>
          ∃ l, doc = JArr (map
                 (λ r : value * value,
                    JObj [("actual", JStr (Py.str repr_float repr_str r.1));
                          ("predicted",
                            JStr (Py.str repr_float repr_str r.2))]) l)
      | Calibration _ =>
          ∃ l, doc = JObj [("calibration", JArr (map
                 (λ r : spec_float * spec_float,
                    JObj [("prob_true", JFloat r.1);
                          ("prob_pred", JFloat r.2)]) l))]
      end.
Proof.
  destruct pl as [self|self|self|self|self]; simpl;
    unfold Roc_dump, PrecisionRecall_dump, Det_dump, ConfusionMatrix_dump,
      Calibration_dump.
  - destruct (Py.getitem val 0) as [e|y0];
      [by rewrite bind_lift_inl | rewrite bind_lift_inr].
    destruct (Py.getitem val 1) as [e|y1];
      [by rewrite bind_lift_inl | rewrite bind_lift_inr].
    destruct (roc_curve y0 y1 kw) as [e|[[a b] c]];
      [by rewrite bind_lift_inl | rewrite bind_lift_inr].
    rewrite (keyed_dump_at_output_path repr_float self "roc" _ _ σ
               (to_json_roc_records repr_float (Py.zip3 a b c))).
    intros H. eexists. split; [exact H | by eexists].
  - destruct (Py.getitem val 0) as [e|y0];
      [by rewrite bind_lift_inl | rewrite bind_lift_inr].
    destruct (Py.getitem val 1) as [e|y1];
      [by rewrite bind_lift_inl | rewrite bind_lift_inr].
    destruct (precision_recall_curve y0 y1 kw) as [e|[[a b] c]];
      [by rewrite bind_lift_inl | rewrite bind_lift_inr].
    rewrite (keyed_dump_at_output_path repr_float self "precision_recall"
               _ _ σ (to_json_prc_records repr_float (Py.zip3 a b c))).
    intros H. eexists. split; [exact H | by eexists].
  - destruct (Py.getitem val 0) as [e|y0];
      [by rewrite bind_lift_inl | rewrite bind_lift_inr].
    destruct (Py.getitem val 1) as [e|y1];
      [by rewrite bind_lift_inl | rewrite bind_lift_inr].
    destruct (det_curve y0 y1 kw) as [e|[[a b] c]];
      [by rewrite bind_lift_inl | rewrite bind_lift_inr].
    rewrite (keyed_dump_at_output_path repr_float self "det" _ _ σ
               (to_json_det_records repr_float (Py.zip3 a b c))).
    intros H. eexists. split; [exact H | by eexists].
  - destruct (Py.getitem val 0) as [e|y0];
      [by rewrite bind_lift_inl | rewrite bind_lift_inr].
    destruct (Py.getitem val 1) as [e|y1];
      [by rewrite bind_lift_inl | rewrite bind_lift_inr].
    destruct (Py.zip y0 y1) as [e|pairs];
      [by rewrite bind_lift_inl | rewrite bind_lift_inr].
    rewrite (dump_json_at_output_path repr_float _ _ _ σ
               (to_json_cm_records pairs)).
    intros H. eexists. split; [exact H | by eexists].
  - destruct (Py.getitem val 0) as [e|y0];
      [by rewrite bind_lift_inl | rewrite bind_lift_inr].
    destruct (Py.getitem val 1) as [e|y1];
      [by rewrite bind_lift_inl | rewrite bind_lift_inr].
    destruct (calibration_curve y0 y1 kw) as [e|[a b]];
      [by rewrite bind_lift_inl | rewrite bind_lift_inr].
    rewrite (keyed_dump_at_output_path repr_float self "calibration" _ _ σ
               (to_json_calibration_records repr_float (combine a b))).
    intros H. eexists. split; [exact H | by eexists].
Qed.

End DumpDocument.

(** X7. For every variant, whenever [dump] returns, the file at the
    output path holds an array of records, bare or under one key, and
    the fields that [get_properties] names as the [x] and [y] axes are
    keys of every one of these records. *)
Theorem axis_fields_are_record_keys
  (repr_float : spec_float → string) (repr_str : string → string)
  (roc_curve precision_recall_curve det_curve :
     value → value → kwargs →
     result (list spec_float * list spec_float * list spec_float))
  (calibration_curve :
     value → value → kwargs → result (list spec_float * list spec_float))
  (p : plot) (h : heap) (val : value) (kw : kwargs) (σ σ' : fs) :
  h !! props_loc (class_of p) = Some (DEFAULT_PROPERTIES (class_of p)) →
  dump repr_float repr_str roc_curve precision_recall_curve det_curve
    calibration_curve p val kw σ = (inr (), σ') →
  ∃ (d : pydict) (kx ky : string) (path : PurePath) (σ1 : fs)
    (doc : json) (recs : list json),
    properties_of p h = Some d
    ∧ d !! "x" = Some kx
    ∧ d !! "y" = Some ky
    ∧ output_path (base_of p) σ = (inr path, σ1)
    ∧ σ' !! path = Some (File doc)
    ∧ (doc = JArr recs ∨ ∃ key, doc = JObj [(key, JArr recs)])
    ∧ Forall (λ r, ∃ ms : list (string * json),
                r = JObj ms ∧ kx ∈ ms.*1 ∧ ky ∈ ms.*1) recs.
Proof.
  intros Hd Hdump.
  apply dump_inr_document in Hdump as (doc & Hw & Hdoc).
  apply write_at_output_path_inr in Hw as (path & σ1 & Hout & _ & Hfile).
  unfold properties_of.
  destruct (get_properties_Some p h _ Hd) as (h1 & -> & Hl & _).
  simpl. rewrite Hl. clear Hl Hd h1.
  destruct p as [self|self|self|self|self]; simpl in *;
    destruct Hdoc as [l ->].
  - exists (DEFAULT_PROPERTIES CRoc), "fpr", "tpr", path, σ1.
    eexists _, _. repeat (split; [reflexivity || eassumption |]).
    split; [right; by eexists |].
    apply Forall_map_intro. intros r. eexists. split; [reflexivity |].
    split; repeat constructor.
  - exists (DEFAULT_PROPERTIES CPrecisionRecall), "recall", "precision",
      path, σ1.
    eexists _, _. repeat (split; [reflexivity || eassumption |]).
    split; [right; by eexists |].
    apply Forall_map_intro. intros r. eexists. split; [reflexivity |].
    split; repeat constructor.
  - exists (DEFAULT_PROPERTIES CDet), "fpr", "fnr", path, σ1.
    eexists _, _. repeat (split; [reflexivity || eassumption |]).
    split; [right; by eexists |].
    apply Forall_map_intro. intros r. eexists. split; [reflexivity |].
    split; repeat constructor.
  - eexists _, "actual", "predicted", path, σ1. eexists _, _.
    split; [reflexivity |].
    split; [by destruct (Py.truthy (normalized self)) |].
    split; [by destruct (Py.truthy (normalized self)) |].
    split; [eassumption |]. split; [eassumption |].
    split; [by left |].
    apply Forall_map_intro. intros r. eexists. split; [reflexivity |].
    split; repeat constructor.
  - exists (DEFAULT_PROPERTIES CCalibration), "prob_pred", "prob_true",
      path, σ1.
    eexists _, _. repeat (split; [reflexivity || eassumption |]).
    split; [right; by eexists |].
    apply Forall_map_intro. intros r. eexists. split; [reflexivity |].
    split; repeat constructor.
Qed.

Lemma axis_fields_are_record_keys_witness :
  let self := ConfusionMatrix_init "cm" "out" ∅ in
  let val := VTuple [VList [VStr "a"; VStr "b"]; VList [VStr "a"; VStr "a"]] in
  let raising3 := λ (_ _ : value) (_ : kwargs),
    inl ValueError
    : result (list spec_float * list spec_float * list spec_float) in
  let raising2 := λ (_ _ : value) (_ : kwargs),
    inl ValueError : result (list spec_float * list spec_float) in
  let σ' := (dump (λ _, "") (λ s, s) raising3 raising3 raising3 raising2
               (ConfusionMatrix self) val ∅ ∅).2 in
  dump (λ _, "") (λ s, s) raising3 raising3 raising3 raising2
    (ConfusionMatrix self) val ∅ ∅ = (inr (), σ')
  ∧ ∃ (d : pydict) (kx ky : string) (path : PurePath)
      (doc : json) (recs : list json),
      properties_of (ConfusionMatrix self) module_heap = Some d
      ∧ d !! "x" = Some kx
      ∧ d !! "y" = Some ky
      ∧ σ' !! path = Some (File doc)
      ∧ Forall (λ r, ∃ ms : list (string * json),
                  r = JObj ms ∧ kx ∈ ms.*1 ∧ ky ∈ ms.*1) recs.
Proof.
  intros self val raising3 raising2 σ'.
  assert (dump (λ _, "") (λ s, s) raising3 raising3 raising3 raising2
            (ConfusionMatrix self) val ∅ ∅ = (inr (), σ')) as H
    by reflexivity.
  split; [exact H |].
  destruct (axis_fields_are_record_keys (λ _, "") (λ s, s)
              raising3 raising3 raising3 raising2
              (ConfusionMatrix self) module_heap val ∅ ∅ σ' eq_refl H)
    as (d & kx & ky & path & σ1 & doc & recs
        & Hd & Hx & Hy & _ & Hfile & _ & Hrecs).
  by exists d, kx, ky, path, doc, recs.
Defined.
